(** * robottravel: the map routes of the backend (backend/maps/routes.py)
      and the database models they use (backend/models.py).

    The Flask handlers are embedded as functions from the request
    parameters and the database to an outcome, the database after the
    request and the list of calls made to the outside world (HTTP requests,
    the helpers of backend.maps.utils).  Python exceptions are explicit
    outcomes, database tables are lists of rows in insertion order. *)

From Stdlib Require Import ZArith QArith Qround Qabs Lqa.
From stdpp Require Import gmap strings list fin_maps pretty.

Open Scope Z_scope.

(** ** Python values *)

(** The arithmetic of Python floats that the handlers use.  The handlers
    never inspect a float, they only combine them with these operations,
    so the development is stated for any carrier [F]. *)
Class PyFloat (F : Type) := {
  (** coercion of an int operand in mixed arithmetic *)
  float_of_int : Z → F;
  (** a decimal literal [m * 10 ^ e] *)
  float_lit : Z → Z → F;
  float_mul : F → F → F;
  float_truediv : F → F → F;
  (** [round(x, ndigits)] *)
  float_round : F → Z → F;
  (** [str(x)], which an f-string applies *)
  float_str : F → string;
}.

(** The values handed to [json.dumps]; a dict keeps its insertion order. *)
#[local] Unset Elimination Schemes.
Inductive json (F : Type) : Type :=
| JNull
| JInt (z : Z)
| JFloat (x : F)
| JStr (s : string)
| JList (l : list (json F))
| JDict (items : list (string * json F)).
#[local] Set Elimination Schemes.

Arguments JNull {F}.
Arguments JInt {F} z.
Arguments JFloat {F} x.
Arguments JStr {F} s.
Arguments JList {F} l.
Arguments JDict {F} items.

(** [d.get(key)] on a dict literal. *)
Fixpoint assoc_get {A : Type} (key : string) (items : list (string * A)) : option A :=
  match items with
  | [] => None
  | (k, v) :: items' => if String.eqb k key then Some v else assoc_get key items'
  end.

Definition json_get {F : Type} (key : string) (body : json F) : option (json F) :=
  match body with
  | JDict items => assoc_get key items
  | _ => None
  end.

(** The exceptions the handlers can raise on the values they consume. *)
Inductive exn : Type :=
| AttributeError
| KeyError (key : string)
| IndexError.

(** What a view function does: it returns a body or raises. *)
Inductive Outcome (F : Type) : Type :=
| Return (body : json F)
| Raise (e : exn).

Arguments Return {F} body.
Arguments Raise {F} e.

(** ** backend/models.py *)

Module User.
Record t : Type := mk {
  id : Z;
  name : string;
  email : string;
  password : string;
  access_level : Z;
  slack_session : option string;
}.
End User.

Module Query.
Record t (F : Type) : Type := mk {
  id : Z;
  entry_o : string;
  entry_d : string;
  user_id : Z;
  fd : F;
}.
Arguments mk {F}.
Arguments id {F}.
Arguments entry_o {F}.
Arguments entry_d {F}.
Arguments user_id {F}.
Arguments fd {F}.
End Query.

Module Tag.
Record t : Type := mk {
  id : Z;
  keyword : string;
  query_id : Z;
  user_id : Z;
}.
End Tag.

Module Location.
Record t (F : Type) : Type := mk {
  id : Z;
  keyword : string;
  lat : F;
  lng : F;
  user_id : Z;
  is_sp : bool;
  (** nullable column: [None] is NULL *)
  query_id : option Z;
}.
Arguments mk {F}.
Arguments id {F}.
Arguments keyword {F}.
Arguments lat {F}.
Arguments lng {F}.
Arguments user_id {F}.
Arguments is_sp {F}.
Arguments query_id {F}.

(** [Location.__init__], with its defaults [query_id = -1] and
    [is_sp = False] written out by the callers.  [pk] is the primary key,
    which the session fills in when the row is flushed. *)
Definition init {F : Type} (pk : Z) (keyword : string) (lat lng : F)
    (user_id : Z) (query_id : Z) (is_sp : bool) : t F :=
  {| id := pk;
     keyword := keyword;
     lat := lat;
     lng := lng;
     user_id := user_id;
     is_sp := is_sp;
     query_id := if query_id =? -1 then None else Some query_id |}.
End Location.

(** The four tables, each in insertion order. *)
Record DB (F : Type) : Type := mkDB {
  user_table : list User.t;
  query_table : list (Query.t F);
  tag_table : list Tag.t;
  location_table : list (Location.t F);
}.

Arguments mkDB {F}.
Arguments user_table {F}.
Arguments query_table {F}.
Arguments tag_table {F}.
Arguments location_table {F}.

(** The integer primary key of a new row: one more than the largest in
    the table. *)
Definition next_id (ids : list Z) : Z := 1 + fold_right Z.max 0 ids.

(** [User.query.get(user_id)] *)
Definition User_query_get {F : Type} (user_id : Z) (db : DB F) : option User.t :=
  List.find (λ u, User.id u =? user_id) (user_table db).

(** [Query.query.filter_by(id=query_id)] *)
Definition Query_filter_by_id {F : Type} (query_id : Z) (db : DB F) : list (Query.t F) :=
  List.filter (λ q, Query.id q =? query_id) (query_table db).

(** [Query.query.filter_by(user_id=user_id)] *)
Definition Query_filter_by_user_id {F : Type} (user_id : Z) (db : DB F) : list (Query.t F) :=
  List.filter (λ q, Query.user_id q =? user_id) (query_table db).

(** [.order_by(Query.id.desc()).first()]: the row with the largest id. *)
Definition first_by_id_desc {F : Type} (rows : list (Query.t F)) : option (Query.t F) :=
  fold_left
    (λ best q,
       match best with
       | None => Some q
       | Some b => if Query.id b <? Query.id q then Some q else Some b
       end)
    rows None.

(** [Query.query.filter_by(id=query_id).delete()] and the commit. *)
Definition Query_delete_by_id {F : Type} (query_id : Z) (db : DB F) : DB F :=
  {| user_table := user_table db;
     query_table := List.filter (λ q, negb (Query.id q =? query_id)) (query_table db);
     tag_table := tag_table db;
     location_table := location_table db |}.

(** [Tag.query.filter_by(query_id=query_id)] *)
Definition Tag_filter_by_query_id {F : Type} (query_id : Z) (db : DB F) : list Tag.t :=
  List.filter (λ t, Tag.query_id t =? query_id) (tag_table db).

(** [Location.query.filter_by(id=location_id)] *)
Definition Location_filter_by_id {F : Type} (location_id : Z) (db : DB F) : list (Location.t F) :=
  List.filter (λ l, Location.id l =? location_id) (location_table db).

(** [Location.query.filter_by(id=location_id).delete()] and the commit. *)
Definition Location_delete_by_id {F : Type} (location_id : Z) (db : DB F) : DB F :=
  {| user_table := user_table db;
     query_table := query_table db;
     tag_table := tag_table db;
     location_table := List.filter (λ l, negb (Location.id l =? location_id)) (location_table db) |}.

(** [db.session.add(Location(...))] followed by [db.session.commit()]. *)
Definition db_session_add_location {F : Type} (keyword : string) (lat lng : F)
    (user_id query_id : Z) (is_sp : bool) (db : DB F) : DB F :=
  {| user_table := user_table db;
     query_table := query_table db;
     tag_table := tag_table db;
     location_table :=
       location_table db ++
       [Location.init (next_id (List.map Location.id (location_table db)))
          keyword lat lng user_id query_id is_sp] |}.

(** ** The outside world *)

(** The fields of the directions response that the handlers consume:
    [routes[0].legs[0]] with either [polyline.points] or [steps], each step
    with [polyline.points], [duration.value] and [distance.value]. *)
Record Step : Type := mkStep {
  step_polyline_points : string;
  duration_value : Z;
  distance_value : Z;
}.

Record Leg : Type := mkLeg {
  (** [None]: the leg has no [steps] *)
  steps : option (list Step);
  (** [None]: the leg has no [polyline] *)
  polyline_points : option string;
}.

Record Route : Type := mkRoute { legs : list Leg }.

Record DirectionResult : Type := mkDirectionResult { routes : list Route }.

(** The place-search response: [geometry.location] of each candidate. *)
Record PlaceSearchResult (F : Type) : Type := mkPlaceSearchResult {
  candidates : list (F * F);
}.

Arguments mkPlaceSearchResult {F}.
Arguments candidates {F}.

(** A deviation as the handlers read it: the keys [name], [lat], [lng]. *)
Record Deviation (F : Type) : Type := mkDeviation {
  dev_name : string;
  dev_lat : F;
  dev_lng : F;
}.

Arguments mkDeviation {F}.
Arguments dev_name {F}.
Arguments dev_lat {F}.
Arguments dev_lng {F}.

(** [current_app.config] *)
Record Config : Type := mkConfig {
  MAPS_DIRECTION_BASE : string;
  MAPS_PLACE_SEARCH_BASE : string;
  GCP_API_KEY : string;
}.

(** What a handler asks of the outside world, in the order it asks. *)
Inductive Call (F : Type) : Type :=
| RequestsPost (url : string)
| RequestsGet (url : string) (params : gmap string string)
| CallPathDeviationPoints (polylines : list string) (fd : F) (tags : list string) (extra : string)
| CallCreateQuery (entry_o entry_d : string) (user_id : Z) (manual : bool) (fd : F).

Arguments RequestsPost {F} url.
Arguments RequestsGet {F} url params.
Arguments CallPathDeviationPoints {F} polylines fd tags extra.
Arguments CallCreateQuery {F} entry_o entry_d user_id manual fd.

(** Everything the routes import or call that is not defined in this
    repository's sources at hand: the configuration, the token serializer,
    the HTTP client, the polyline package, and the helpers and constants of
    backend.maps.utils and backend.users.utils. *)
Class Collaborators (F : Type) := {
  config : Config;
  (** [Serializer(SECRET_KEY).loads(token)['user_id']]; [None] when it
      raises [BadSignature] (an expired token is one) *)
  serializer_loads : string → option Z;
  (** [requests.post(url).json()] on the directions service *)
  directions_post : string → DirectionResult;
  (** [requests.get(url, params=...).json()] on the directions service *)
  directions_get : string → gmap string string → DirectionResult;
  (** [requests.post(url).json()] on the place-search service *)
  place_search_post : string → PlaceSearchResult F;
  (** [polyline.encode] *)
  polyline_encode : list (F * F) → string;
  (** backend.maps.utils *)
  pathDeviationPoints : list string → F → list string → string → list (Deviation F);
  create_query : string → string → Z → bool → F → DB F → DB F;
  (** backend.users.utils *)
  token_expiration_json_response : json F;
  insufficient_rights_json_response : json F;
}.

(** Modelled from the spec: [get_deviation_points] of backend.maps.utils is
    not in the sources.  The spec has "get results" return the previously
    persisted Stopovers of the query as a pure read: the rows of the
    location table that reference the query, in stored order, each as
    [{name, lat, lng}]. *)
Definition get_deviation_points {F : Type} (query_id : Z) (db : DB F) : list (Deviation F) :=
  List.map
    (λ l, {| dev_name := Location.keyword l;
             dev_lat := Location.lat l;
             dev_lng := Location.lng l |})
    (List.filter
       (λ l, match Location.query_id l with
             | Some q => q =? query_id
             | None => false
             end)
       (location_table db)).

Definition deviation_json {F : Type} (d : Deviation F) : json F :=
  JDict [("name", JStr (dev_name d)); ("lat", JFloat (dev_lat d)); ("lng", JFloat (dev_lng d))].

(** ** backend/models.py: User.verify_auth_token *)

Definition verify_auth_token {F : Type} `{!Collaborators F} (token : string) (db : DB F)
    : option User.t :=
  match serializer_loads token with
  | None => None
  | Some user_id => User_query_get user_id db
  end.

(** ** backend/maps/routes.py *)

(** [x[0]] on a list *)
Definition index0 {A : Type} (l : list A) : exn + A :=
  match l with
  | [] => inl IndexError
  | x :: _ => inr x
  end.

(** [direction_result['routes'][0]['legs'][0]] *)
Definition base_leg_of (direction_result : DirectionResult) : exn + Leg :=
  match index0 (routes direction_result) with
  | inl e => inl e
  | inr route => index0 (legs route)
  end.

(** Lines 134-138 of compute_query_result: the polylines handed to
    [pathDeviationPoints]. *)
Definition leg_polylines (base_leg : Leg) : exn + list string :=
  match steps base_leg with
  | None =>
      match polyline_points base_leg with
      | None => inl (KeyError "polyline")
      | Some points => inr [points]
      end
  | Some steps => inr (List.map step_polyline_points steps)
  end.

(** [distance_request['routes'][0]['legs'][0]['steps']] *)
Definition result_steps (distance_request : DirectionResult) : exn + list Step :=
  match base_leg_of distance_request with
  | inl e => inl e
  | inr leg =>
      match steps leg with
      | None => inl (KeyError "steps")
      | Some steps => inr steps
      end
  end.

(** [sum(...)] over ints *)
Definition py_sum (l : list Z) : Z := fold_left Z.add l 0.

Definition Result (F : Type) : Type := Outcome F * DB F * list (Call F).

Section Routes.
Context {F : Type} `{!PyFloat F, !Collaborators F}.

Definition status_message (status : Z) (message : string) : list (string * json F) :=
  [("status", JInt status); ("message", JStr message)].

(** POST /map/query/new *)
Definition create_new_query (auth_token entry_o entry_d : string) (distance : F)
    (db : DB F) : Result F :=
  match verify_auth_token auth_token db with
  | None => (Return token_expiration_json_response, db, [])
  | Some user =>
      (Return (JDict (status_message 0 "User query created successfully")),
       create_query entry_o entry_d (User.id user) true distance db,
       [CallCreateQuery entry_o entry_d (User.id user) true distance])
  end.

(** POST /map/query/delete; [query_id] is [None] when the JSON value is
    null. *)
Definition delete_query (auth_token : string) (query_id : option Z) (db : DB F) : Result F :=
  match verify_auth_token auth_token db with
  | None => (Return token_expiration_json_response, db, [])
  | Some user =>
      match query_id with
      | None => (Return (JDict (status_message 3 "query_id is of type None")), db, [])
      | Some query_id =>
          match head (Query_filter_by_id query_id db) with
          | None => (Return (JDict (status_message 3 "query is of type None")), db, [])
          | Some query =>
              if negb (User.id user =? Query.user_id query)
              then (Return (JDict (status_message 3 "query does not belong to this user")), db, [])
              else (Return (JDict (status_message 0 "User query deleted successfully")),
                    Query_delete_by_id query_id db, [])
          end
      end
  end.

(** The URL of line 129. *)
Definition compute_url (query : Query.t F) : string :=
  MAPS_DIRECTION_BASE config +:+ "?origin=" +:+ Query.entry_o query +:+
  "&destination=" +:+ Query.entry_d query +:+ "&mode=driving" +:+
  "&key=" +:+ GCP_API_KEY config.

(** The loop of lines 141-145: one row added and committed per deviation. *)
Definition persist_deviations (query : Query.t F) (deviations : list (Deviation F))
    (db : DB F) : DB F :=
  fold_left
    (λ db curr_deviation,
       db_session_add_location (dev_name curr_deviation) (dev_lat curr_deviation)
         (dev_lng curr_deviation) (Query.user_id query) (Query.id query) false db)
    deviations db.

(** What the loop stores for the deviation [d]: the row [l]. *)
Definition deviation_row (query : Query.t F) (d : Deviation F) (l : Location.t F) : Prop :=
  Location.keyword l = dev_name d ∧ Location.lat l = dev_lat d ∧
  Location.lng l = dev_lng d ∧ Location.user_id l = Query.user_id query ∧
  Location.is_sp l = false ∧
  Location.query_id l = (if Query.id query =? -1 then None else Some (Query.id query)).

(** GET /map/query/compute/<int:query_id>; the [int] converter of the route
    matches digits only, so the id is a natural number. *)
Definition compute_query_result (query_id : N) (db : DB F) : Result F :=
  match head (Query_filter_by_id (Z.of_N query_id) db) with
  | None => (Raise AttributeError, db, [])
  | Some query =>
      let url := compute_url query in
      let direction_result := directions_post url in
      match base_leg_of direction_result with
      | inl e => (Raise e, db, [RequestsPost url])
      | inr base_leg =>
          match leg_polylines base_leg with
          | inl e => (Raise e, db, [RequestsPost url])
          | inr polylines =>
              let tags := List.map Tag.keyword (Tag_filter_by_query_id (Query.id query) db) in
              let deviations := pathDeviationPoints polylines (Query.fd query) tags "" in
              (Return (JDict (status_message 0 "Basic Route Created Successfully" ++
                              [("deviations", JList (List.map deviation_json deviations))])),
               persist_deviations query deviations db,
               [RequestsPost url;
                CallPathDeviationPoints polylines (Query.fd query) tags ""])
          end
      end
  end.

(** [param_dict] of create_query_result, lines 195-201. *)
Definition result_param_dict (query : Query.t F) (deviations : list (Deviation F))
    : gmap string string :=
  let param_dict : gmap string string :=
    <["key" := GCP_API_KEY config]>
      (<["destination" := Query.entry_d query]>
         (<["origin" := Query.entry_o query]> ∅)) in
  if negb (length deviations =? 0)%nat
  then <["waypoints" :=
           "via:enc:" +:+
           polyline_encode (List.map (λ x, (dev_lat x, dev_lng x)) deviations) +:+
           ":"]> param_dict
  else param_dict.

(** The [time] and [distance] fields, lines 208-209. *)
Definition result_time (duration : Z) : string :=
  pretty (duration / 3600) +:+ ":" +:+
  pretty ((duration - (duration / 3600) * 3600) / 60).

Definition result_distance (distance : Z) : string :=
  float_str
    (float_round
       (float_truediv (float_mul (float_of_int distance) (float_lit 621371 (-6)))
          (float_of_int 1000))
       2).

(** The query that create_query_result works on, lines 184-188;
    [query_id] is [None] when the key is absent or null. *)
Definition result_query (user : User.t) (query_id : option Z) (db : DB F)
    : option (Query.t F) :=
  match query_id with
  | None => first_by_id_desc (Query_filter_by_user_id (User.id user) db)
  | Some query_id => head (Query_filter_by_id query_id db)
  end.

(** POST /map/query/result *)
Definition create_query_result (auth_token : string) (query_id : option Z) (db : DB F)
    : Result F :=
  match verify_auth_token auth_token db with
  | None => (Return token_expiration_json_response, db, [])
  | Some user =>
      match result_query user query_id db with
      | None => (Return (JDict (status_message 3 "Requested query does not exist")), db, [])
      | Some query =>
          let deviations := get_deviation_points (Query.id query) db in
          let param_dict := result_param_dict query deviations in
          let distance_request := directions_get (MAPS_DIRECTION_BASE config) param_dict in
          let calls := [RequestsGet (MAPS_DIRECTION_BASE config) param_dict] in
          match result_steps distance_request with
          | inl e => (Raise e, db, calls)
          | inr steps =>
              let duration := py_sum (List.map duration_value steps) in
              let distance := py_sum (List.map distance_value steps) in
              (Return (JDict (status_message 0 "Basic Route Created Successfully" ++
                              [("start", JStr (Query.entry_o query));
                               ("end", JStr (Query.entry_d query));
                               ("deviations", JList (List.map deviation_json deviations));
                               ("time", JStr (result_time duration));
                               ("distance", JStr (result_distance distance))])),
               db, calls)
          end
      end
  end.

(** GET, POST /map/query/get *)
Definition query_json (x : Query.t F) : json F :=
  JDict [("id", JInt (Query.id x)); ("start", JStr (Query.entry_o x));
         ("end", JStr (Query.entry_d x)); ("distance", JFloat (Query.fd x))].

Definition get_user_query (auth_token : string) (db : DB F) : Result F :=
  match verify_auth_token auth_token db with
  | None => (Return token_expiration_json_response, db, [])
  | Some user =>
      let all_queries := query_table db in
      (Return (JDict (status_message 0 "Request fulfilled successfully" ++
                      [("queries", JList (List.map query_json all_queries))])),
       db, [])
  end.

(** POST /map/sponsor/loc/add *)
Definition sponsor_url (new_location : string) : string :=
  MAPS_PLACE_SEARCH_BASE config +:+ "?input=" +:+ new_location +:+
  "&inputtype=textquery" +:+ "&key=" +:+ GCP_API_KEY config.

Definition add_sponsor_location (auth_token location : string) (db : DB F) : Result F :=
  match verify_auth_token auth_token db with
  | None => (Return token_expiration_json_response, db, [])
  | Some user =>
      if User.access_level user <? 1
      then (Return insufficient_rights_json_response, db, [])
      else
        let url := sponsor_url location in
        let place_search_result := place_search_post url in
        match index0 (candidates place_search_result) with
        | inl e => (Raise e, db, [RequestsPost url])
        | inr (lat, lng) =>
            (Return (JDict (status_message 0 "Sponsor Location Added Successfully")),
             db_session_add_location location lat lng (User.id user) (-1) true db,
             [RequestsPost url])
        end
  end.

(** POST /map/sponsor/loc/delete *)
Definition delete_location (auth_token : string) (location_id : Z) (db : DB F) : Result F :=
  match verify_auth_token auth_token db with
  | None => (Return token_expiration_json_response, db, [])
  | Some user =>
      match head (Location_filter_by_id location_id db) with
      | None => (Return (JDict (status_message 3 "Location not found")), db, [])
      | Some loc =>
          if negb (User.id user =? Location.user_id loc)
          then (Return (JDict (status_message 3
                  "The requested location does not belong to this user")), db, [])
          else (Return (JDict (status_message 0 "Sponsor location deleted successfully")),
                Location_delete_by_id location_id db, [])
      end
  end.

End Routes.

(** ** backend/models.py: issuing tokens, and the reset tokens *)

(** [Serializer(SECRET_KEY, expires_seconds).dumps({'user_id': id}).decode('utf-8')]
    of itsdangerous, at the time of the call. *)
Class TokenIssuer := {
  serializer_dumps : Z → Z → string;
}.

(** [User.get_auth_token]; [expires_seconds] defaults to 3600. *)
Definition get_auth_token {issuer : TokenIssuer} (self : User.t) (expires_seconds : Z) : string :=
  serializer_dumps expires_seconds (User.id self).

(** [User.get_reset_token]; [expires_seconds] defaults to 1800. *)
Definition get_reset_token {issuer : TokenIssuer} (self : User.t) (expires_seconds : Z) : string :=
  serializer_dumps expires_seconds (User.id self).

(** [User.verify_reset_token] *)
Definition verify_reset_token {F : Type} `{!Collaborators F} (token : string) (db : DB F)
    : option User.t :=
  match serializer_loads token with
  | None => None
  | Some user_id => User_query_get user_id db
  end.

(** ** The Deviation Point Finder *)

Module DeviationFinder.

Inductive error : Type := InvalidThreshold.

Section Finder.
Variable point : Type.
Variable distance : point → point → Q.

(** Modelled from the spec: [pathDeviationPoints] of backend.maps.utils is
    not in the sources.  The walk of section 4.3: [previous] is the cursor,
    [acc] the distance since the last emitted point; each next coordinate
    [p] adds [distance previous p], and is emitted, with the accumulator
    reset, when the accumulator has reached [fd]; the final endpoint is
    never emitted.  Distances are exact rationals. *)
Fixpoint walk (fd : Q) (previous : point) (acc : Q) (rest : list point) : list point :=
  match rest with
  | [] => []
  | p :: rest' =>
      let acc' := (acc + distance previous p)%Q in
      if Qle_bool fd acc'
      then match rest' with
           | [] => []
           | _ :: _ => p :: walk fd p 0%Q rest'
           end
      else walk fd p acc' rest'
  end.

(** Modelled from the spec: the segments are concatenated end to end, the
    cursor starts at the first coordinate of the first segment, and a
    non-positive threshold is rejected before any sampling. *)
Definition find_deviation_points (segments : list (list point)) (fd : Q)
    : error + list point :=
  if Qle_bool fd 0
  then inl InvalidThreshold
  else match concat segments with
       | [] => inr []
       | origin :: rest => inr (walk fd origin 0%Q rest)
       end.

(** The same walk, emitting the position in the path of each candidate
    instead of the candidate; [k] is the position of [previous]. *)
Fixpoint walk_positions (fd : Q) (k : nat) (previous : point) (acc : Q)
    (rest : list point) : list nat :=
  match rest with
  | [] => []
  | p :: rest' =>
      let acc' := (acc + distance previous p)%Q in
      if Qle_bool fd acc'
      then match rest' with
           | [] => []
           | _ :: _ => S k :: walk_positions fd (S k) p 0%Q rest'
           end
      else walk_positions fd (S k) p acc' rest'
  end.

Definition deviation_positions (segments : list (list point)) (fd : Q) : list nat :=
  match concat segments with
  | [] => []
  | origin :: rest => walk_positions fd 0 origin 0%Q rest
  end.

(** The length of a path: the sum of its hops. *)
Fixpoint path_length (path : list point) : Q :=
  match path with
  | a :: (b :: _) as tl => (distance a b + path_length tl)%Q
  | _ => 0%Q
  end.

(** The distance travelled along the path from its origin to position
    [k]. *)
Fixpoint travelled (path : list point) (k : nat) : Q :=
  match k, path with
  | S k', a :: (b :: _) as tl => (distance a b + travelled tl k')%Q
  | _, _ => 0%Q
  end.

(** Consecutive positions are at least [fd] apart along the path, the
    first one at least [fd] after the offset [last]. *)
Fixpoint spaced (fd : Q) (path : list point) (last : Q) (positions : list nat) : Prop :=
  match positions with
  | [] => True
  | k :: positions' =>
      (fd <= travelled path k - last)%Q ∧ spaced fd path (travelled path k) positions'
  end.

End Finder.

Arguments walk {point}.
Arguments find_deviation_points {point}.
Arguments walk_positions {point}.
Arguments deviation_positions {point}.
Arguments path_length {point}.
Arguments travelled {point}.
Arguments spaced {point}.

End DeviationFinder.

(** ** A reference instance: exact rational arithmetic *)

Module Exact.

(** [round(x, ndigits)] rounds to the nearest multiple of [10 ^ -ndigits],
    ties to even. *)
Definition round_half_even (x : Q) (ndigits : Z) : Q :=
  let scale := (10 ^ ndigits)%Q in
  let y := (x * scale)%Q in
  let f := Qfloor y in
  let n := match (y - inject_Z f ?= 1 # 2)%Q with
           | Lt => f
           | Gt => f + 1
           | Eq => if Z.even f then f else f + 1
           end in
  Qred (inject_Z n / scale).

(** The digits after the point of [num / den], which lies in [0, 1). *)
Fixpoint frac_digits (fuel : nat) (num den : Z) : string :=
  match fuel with
  | O => ""
  | S fuel' =>
      let t := num * 10 in
      pretty (t / den) +:+
      (if t mod den =? 0 then "" else frac_digits fuel' (t mod den) den)
  end.

Definition to_str (x : Q) : string :=
  let n := Qnum (Qred x) in
  let d := Z.pos (Qden (Qred x)) in
  (if n <? 0 then "-" else "") +:+
  pretty (Z.abs n / d) +:+ "." +:+ frac_digits 17 (Z.abs n mod d) d.

#[export] Instance Q_PyFloat : PyFloat Q := {|
  float_of_int := inject_Z;
  float_lit := λ m e, Qred (inject_Z m * 10 ^ e)%Q;
  float_mul := λ x y, Qred (x * y)%Q;
  float_truediv := λ x y, Qred (x / y)%Q;
  float_round := round_half_even;
  float_str := to_str;
|}.

(** The compact polyline encoding of the polyline package, precision 5:
    each coordinate is scaled by 1e5 and rounded half away from zero, the
    difference to the previous one is shifted left by one bit and
    complemented when negative, then written in 5-bit groups, low group
    first, each with the continuation bit 0x20 but the last, plus 63. *)
Definition py2_round (x : Q) : Z :=
  let a := Qfloor (Qabs x + (1 # 2))%Q in
  if Qle_bool 0 x then a else - a.

Fixpoint write_groups (fuel : nat) (coord : Z) : string :=
  match fuel with
  | O => ""
  | S fuel' =>
      if 32 <=? coord
      then String (Ascii.ascii_of_N (Z.to_N (Z.lor 32 (Z.land coord 31) + 63)))
             (write_groups fuel' (Z.shiftr coord 5))
      else String (Ascii.ascii_of_N (Z.to_N (coord + 63))) ""
  end.

Definition write_value (curr_value prev_value : Q) : string :=
  let coord := Z.shiftl (py2_round (curr_value * 100000) - py2_round (prev_value * 100000)) 1 in
  write_groups 14 (if 0 <=? coord then coord else Z.lnot coord).

Fixpoint encode_from (prev : Q * Q) (coordinates : list (Q * Q)) : string :=
  match coordinates with
  | [] => ""
  | curr :: coordinates' =>
      write_value (fst curr) (fst prev) +:+ write_value (snd curr) (snd prev) +:+
      encode_from curr coordinates'
  end.

Definition encode (coordinates : list (Q * Q)) : string := encode_from (0%Q, 0%Q) coordinates.

End Exact.

(** ** A small world to run the handlers in *)

Module Sample.
Import Exact.

Definition alice : User.t :=
  User.mk 1 "Alice" "alice@example.org" "hash-a" 0 None.

Definition bob : User.t :=
  User.mk 2 "Bob" "bob@example.org" "hash-b" 1 None.

Definition alice_query : Query.t Q :=
  Query.mk 1 "Gainesville, FL" "Miami, FL" 1 50%Q.

Definition bob_query : Query.t Q :=
  Query.mk 2 "Orlando, FL" "Tampa, FL" 2 30%Q.

Definition alice_stopover : Location.t Q :=
  Location.mk 1 "Silver Springs" (385 # 10)%Q (-1202 # 10)%Q 1 false (Some 1).

Definition bob_sponsor_location : Location.t Q :=
  Location.mk 2 "Bob's Diner" (407 # 10)%Q (-12095 # 100)%Q 2 true None.

Definition db : DB Q :=
  {| user_table := [alice; bob];
     query_table := [alice_query; bob_query];
     tag_table := [Tag.mk 1 "museum" 1 1; Tag.mk 2 "park" 1 1];
     location_table := [alice_stopover; bob_sponsor_location] |}.

(** Three steps of 600, 900 and 1500 seconds and 1000, 2000 and 3000
    meters. *)
Definition three_steps : list Step :=
  [mkStep "_p~iF~ps|U" 600 1000; mkStep "_ulLnnqC" 900 2000; mkStep "_mqNvxq`@" 1500 3000].

Definition stepped_route : DirectionResult :=
  mkDirectionResult [mkRoute [mkLeg (Some three_steps) None]].

Definition overview_route : DirectionResult :=
  mkDirectionResult [mkRoute [mkLeg None (Some "_p~iF~ps|U_ulLnnqC_mqNvxq`@")]].

Definition found_deviations : list (Deviation Q) :=
  [mkDeviation "Ocala Museum" (291 # 10)%Q (-821 # 10)%Q;
   mkDeviation "Lake Park" (27 # 1)%Q (-804 # 10)%Q].

Definition loads (token : string) : option Z :=
  if String.eqb token "alice-token" then Some 1
  else if String.eqb token "bob-token" then Some 2
  else None.

Definition add_query (entry_o entry_d : string) (user_id : Z) (manual : bool) (fd : Q)
    (db : DB Q) : DB Q :=
  {| user_table := user_table db;
     query_table :=
       query_table db ++
       [Query.mk (next_id (List.map Query.id (query_table db))) entry_o entry_d user_id fd];
     tag_table := tag_table db;
     location_table := location_table db |}.

Definition world_with (directions : DirectionResult) : Collaborators Q := {|
  config := mkConfig "https://maps.example/directions" "https://maps.example/place" "KEY";
  serializer_loads := loads;
  directions_post := λ _, directions;
  directions_get := λ _ _, directions;
  place_search_post := λ _, mkPlaceSearchResult [((258 # 10)%Q, (-802 # 10)%Q)];
  polyline_encode := encode;
  pathDeviationPoints := λ _ _ _ _, found_deviations;
  create_query := add_query;
  token_expiration_json_response :=
    JDict [("status", JInt 1); ("message", JStr "Token expired")];
  insufficient_rights_json_response :=
    JDict [("status", JInt 2); ("message", JStr "Insufficient rights")];
|}.

Definition world : Collaborators Q := world_with stepped_route.

(** The same world with a place search that finds nothing. *)
Definition world_without_places : Collaborators Q := {|
  config := config (Collaborators := world);
  serializer_loads := loads;
  directions_post := λ _, stepped_route;
  directions_get := λ _ _, stepped_route;
  place_search_post := λ _, mkPlaceSearchResult [];
  polyline_encode := encode;
  pathDeviationPoints := λ _ _ _ _, found_deviations;
  create_query := add_query;
  token_expiration_json_response := token_expiration_json_response (Collaborators := world);
  insufficient_rights_json_response :=
    insufficient_rights_json_response (Collaborators := world);
|}.

(** The tokens that [loads] accepts. *)
Definition issuer : TokenIssuer := {|
  serializer_dumps := λ _ user_id,
    if user_id =? 1 then "alice-token"
    else if user_id =? 2 then "bob-token"
    else "unsigned";
|}.

(** Points on a line, a unit apart per integer step. *)
Definition line_distance (a b : Z) : Q := inject_Z (Z.abs (a - b)).

(** Three segments, ten points, a path of length 10. *)
Definition segments : list (list Z) := [[0; 1; 2; 3]; [3; 4; 7; 8]; [9; 10]].

End Sample.

(** * Properties *)

(** ** Lists and tables *)

Lemma head_filter_Some {A : Type} (p : A → bool) (l : list A) (x : A) :
  head (List.filter p l) = Some x → p x = true ∧ In x l.
Proof.
  induction l as [|a l IH]; simpl; [discriminate|].
  destruct (p a) eqn:Hp; simpl.
  - intros [= ->]. auto.
  - intros H. destruct (IH H). auto.
Qed.

Lemma py_sum_from (l : list Z) (start : Z) :
  fold_left Z.add l start = start + foldr Z.add 0 l.
Proof.
  revert start. induction l as [|x l IH]; intros start; simpl; [lia|].
  rewrite IH. lia.
Qed.

Lemma py_sum_foldr (l : list Z) : py_sum l = foldr Z.add 0 l.
Proof. unfold py_sum. rewrite py_sum_from. lia. Qed.

Section RoutesFacts.
Context {F : Type} `{!PyFloat F, !Collaborators F}.

Lemma verify_auth_token_None (token : string) (db : DB F) :
  verify_auth_token token db = None ↔
  serializer_loads token = None ∨
  ∃ user_id, serializer_loads token = Some user_id ∧ User_query_get user_id db = None.
Proof.
  unfold verify_auth_token. destruct (serializer_loads token) as [user_id|]; split.
  - intros H. right. eauto.
  - intros [H | (u & [= <-] & H)]; [discriminate | exact H].
  - auto.
  - auto.
Qed.

Lemma persist_deviations_rows (query : Query.t F) (deviations : list (Deviation F))
    (db : DB F) :
  ∃ new, location_table (persist_deviations query deviations db) = location_table db ++ new ∧
         Forall2 (deviation_row query) deviations new.
Proof.
  unfold persist_deviations. revert db.
  induction deviations as [|d deviations IH]; intros db; simpl.
  - exists []. rewrite app_nil_r. split; [reflexivity | constructor].
  - destruct (IH (db_session_add_location (dev_name d) (dev_lat d) (dev_lng d)
                    (Query.user_id query) (Query.id query) false db)) as (new & Htable & Hrows).
    eexists (_ :: new). split.
    + rewrite Htable. simpl. rewrite <- app_assoc. reflexivity.
    + constructor; [|exact Hrows]. repeat split.
Qed.

Lemma persist_deviations_other_tables (query : Query.t F) (deviations : list (Deviation F))
    (db : DB F) :
  user_table (persist_deviations query deviations db) = user_table db ∧
  query_table (persist_deviations query deviations db) = query_table db ∧
  tag_table (persist_deviations query deviations db) = tag_table db.
Proof.
  unfold persist_deviations. revert db.
  induction deviations as [|d deviations IH]; intros db; simpl; [auto|].
  destruct (IH (db_session_add_location (dev_name d) (dev_lat d) (dev_lng d)
                  (Query.user_id query) (Query.id query) false db)) as (Hu & Hq & Ht).
  rewrite Hu, Hq, Ht. auto.
Qed.

Lemma result_param_dict_waypoints (query : Query.t F) (deviations : list (Deviation F)) :
  result_param_dict query deviations !! "waypoints" =
  match deviations with
  | [] => None
  | _ :: _ =>
      Some ("via:enc:" +:+
            polyline_encode (List.map (λ x, (dev_lat x, dev_lng x)) deviations) +:+ ":")
  end.
Proof.
  unfold result_param_dict. destruct deviations as [|d deviations]; simpl.
  - rewrite !lookup_insert_ne by discriminate. apply lookup_empty.
  - apply lookup_insert_eq.
Qed.

Lemma result_time_mod (duration : Z) :
  result_time duration =
  pretty (duration / 3600) +:+ ":" +:+ pretty ((duration mod 3600) / 60).
Proof.
  unfold result_time.
  replace (duration - duration / 3600 * 3600) with (duration mod 3600); [reflexivity|].
  rewrite (Z.mod_eq duration 3600) by lia. lia.
Qed.

(** ** Authentication *)

(** C10: in each of the six operations that verify an auth token (create
    query, delete query, get results, get queries, add sponsor location,
    delete sponsor location), when the verification returns no user the
    operation returns the token-expiration response, the database is the
    one it started from, and nothing outside is called. *)
Theorem token_verification_failure (token : string) (db : DB F) :
  verify_auth_token token db = None →
  (∀ entry_o entry_d distance,
     create_new_query token entry_o entry_d distance db =
     (Return token_expiration_json_response, db, [])) ∧
  (∀ query_id,
     delete_query token query_id db = (Return token_expiration_json_response, db, [])) ∧
  (∀ query_id,
     create_query_result token query_id db =
     (Return token_expiration_json_response, db, [])) ∧
  get_user_query token db = (Return token_expiration_json_response, db, []) ∧
  (∀ location,
     add_sponsor_location token location db =
     (Return token_expiration_json_response, db, [])) ∧
  (∀ location_id,
     delete_location token location_id db =
     (Return token_expiration_json_response, db, [])).
Proof.
  intros Hnone.
  unfold create_new_query, delete_query, create_query_result, get_user_query,
    add_sponsor_location, delete_location.
  rewrite Hnone. repeat split.
Qed.

(** ** Deleting a query *)

(** C7: a delete-query request of an authenticated user whose id differs
    from the user_id of the query returns the status 3 error, and the
    database, the query included, stays as it was. *)
Theorem delete_query_not_owner (token : string) (query_id : Z) (db : DB F)
    (user : User.t) (query : Query.t F) :
  verify_auth_token token db = Some user →
  head (Query_filter_by_id query_id db) = Some query →
  User.id user ≠ Query.user_id query →
  delete_query token (Some query_id) db =
  (Return (JDict [("status", JInt 3);
                  ("message", JStr "query does not belong to this user")]),
   db, []) ∧
  In query (query_table (delete_query token (Some query_id) db).1.2).
Proof.
  intros Huser Hquery Hne.
  assert (Hres : delete_query token (Some query_id) db =
                 (Return (JDict [("status", JInt 3);
                                 ("message", JStr "query does not belong to this user")]),
                  db, [])).
  { unfold delete_query. rewrite Huser, Hquery.
    destruct (Z.eqb_spec (User.id user) (Query.user_id query)) as [Heq|_];
      [contradiction | reflexivity]. }
  split; [exact Hres|].
  rewrite Hres. simpl.
  apply head_filter_Some in Hquery. apply Hquery.
Qed.

(** ** Listing the queries *)

(** C9: get queries answers every authenticated user alike: the response
    lists id, origin, destination and threshold of every row of the query
    table, whoever owns it. *)
Theorem get_user_query_lists_all (token1 token2 : string) (db : DB F)
    (user1 user2 : User.t) :
  verify_auth_token token1 db = Some user1 →
  verify_auth_token token2 db = Some user2 →
  get_user_query token1 db = get_user_query token2 db ∧
  get_user_query token1 db =
  (Return (JDict [("status", JInt 0);
                  ("message", JStr "Request fulfilled successfully");
                  ("queries", JList (List.map query_json (query_table db)))]),
   db, []) ∧
  ∀ x, In x (query_table db) →
       In (JDict [("id", JInt (Query.id x)); ("start", JStr (Query.entry_o x));
                  ("end", JStr (Query.entry_d x)); ("distance", JFloat (Query.fd x))])
          (List.map query_json (query_table db)).
Proof.
  intros H1 H2. unfold get_user_query. rewrite H1, H2.
  repeat split. intros x Hx. apply (in_map query_json _ _ Hx).
Qed.

(** ** Computing the deviations *)

(** C8: compute deviations hands to pathDeviationPoints the one-element
    list of the leg's polyline.points when the first leg of the first route
    has no steps, and the polyline.points of every step, in step order,
    otherwise. *)
Theorem compute_polylines (query_id : N) (db : DB F) (query : Query.t F) (base_leg : Leg) :
  head (Query_filter_by_id (Z.of_N query_id) db) = Some query →
  base_leg_of (directions_post (compute_url query)) = inr base_leg →
  (∀ points,
     steps base_leg = None → polyline_points base_leg = Some points →
     (compute_query_result query_id db).2 =
     [RequestsPost (compute_url query);
      CallPathDeviationPoints [points] (Query.fd query)
        (List.map Tag.keyword (Tag_filter_by_query_id (Query.id query) db)) ""]) ∧
  (∀ all_steps,
     steps base_leg = Some all_steps →
     (compute_query_result query_id db).2 =
     [RequestsPost (compute_url query);
      CallPathDeviationPoints (List.map step_polyline_points all_steps) (Query.fd query)
        (List.map Tag.keyword (Tag_filter_by_query_id (Query.id query) db)) ""]).
Proof.
  intros Hquery Hleg. unfold compute_query_result. rewrite Hquery. simpl.
  rewrite Hleg. unfold leg_polylines. split.
  - intros points Hsteps Hpoints. rewrite Hsteps, Hpoints. reflexivity.
  - intros all_steps Hsteps. rewrite Hsteps. reflexivity.
Qed.

(** C6: the rows that compute deviations stores, one per deviation after
    the rows already there, carry the user_id of the query, the id of the
    query as query_id, and is_sp = False; the row that add sponsor location
    stores carries is_sp = True and no query_id. *)
Theorem stored_locations_owner :
  (∀ (query_id : N) (db : DB F) (query : Query.t F) (base_leg : Leg)
     (polylines : list string),
     head (Query_filter_by_id (Z.of_N query_id) db) = Some query →
     base_leg_of (directions_post (compute_url query)) = inr base_leg →
     leg_polylines base_leg = inr polylines →
     ∃ new,
       location_table (compute_query_result query_id db).1.2 = location_table db ++ new ∧
       length new =
       length (pathDeviationPoints polylines (Query.fd query)
                 (List.map Tag.keyword (Tag_filter_by_query_id (Query.id query) db)) "") ∧
       Forall (λ l, Location.user_id l = Query.user_id query ∧
                    Location.query_id l = Some (Query.id query) ∧
                    Location.is_sp l = false) new ∧
       head (Query_filter_by_id (Query.id query) (compute_query_result query_id db).1.2) =
       Some query) ∧
  (∀ (token location : string) (db : DB F) (user : User.t) (lat lng : F)
     (others : list (F * F)),
     verify_auth_token token db = Some user →
     1 ≤ User.access_level user →
     candidates (place_search_post (sponsor_url location)) = (lat, lng) :: others →
     ∃ l,
       location_table (add_sponsor_location token location db).1.2 =
       location_table db ++ [l] ∧
       Location.is_sp l = true ∧ Location.query_id l = None ∧
       Location.user_id l = User.id user).
Proof.
  split.
  - intros query_id db query base_leg polylines Hquery Hleg Hpoly.
    unfold compute_query_result. rewrite Hquery. simpl.
    rewrite Hleg, Hpoly. simpl.
    destruct (persist_deviations_rows query
                (pathDeviationPoints polylines (Query.fd query)
                   (List.map Tag.keyword (Tag_filter_by_query_id (Query.id query) db)) "")
                db) as (new & Htable & Hrows).
    pose proof (head_filter_Some _ _ _ Hquery) as [Hid _].
    apply Z.eqb_eq in Hid.
    exists new. split; [exact Htable|]. split; [|split].
    + symmetry. apply (Forall2_length _ _ _ Hrows).
    + assert (Hpk : (Query.id query =? -1) = false) by (apply Z.eqb_neq; lia).
      clear Htable. induction Hrows as [|d l ds ls Hrow _ IH]; constructor; [|exact IH].
      destruct Hrow as (_ & _ & _ & Huser & Hsp & Hq). rewrite Hpk in Hq. auto.
    + unfold Query_filter_by_id in *.
      destruct (persist_deviations_other_tables query
                  (pathDeviationPoints polylines (Query.fd query)
                     (List.map Tag.keyword (Tag_filter_by_query_id (Query.id query) db)) "")
                  db) as (_ & Hqueries & _).
      rewrite Hqueries, Hid. exact Hquery.
  - intros token location db user lat lng others Huser Hlevel Hcand.
    unfold add_sponsor_location. rewrite Huser.
    destruct (Z.ltb_spec (User.access_level user) 1) as [Hlt|_]; [lia|].
    rewrite Hcand. simpl.
    eexists. split; [reflexivity|]. simpl. auto.
Qed.

(** ** Getting the results *)

Lemma create_query_result_calls (token : string) (query_id : option Z) (db : DB F)
    (user : User.t) (query : Query.t F) :
  verify_auth_token token db = Some user →
  result_query user query_id db = Some query →
  (create_query_result token query_id db).2 =
  [RequestsGet (MAPS_DIRECTION_BASE config)
     (result_param_dict query (get_deviation_points (Query.id query) db))].
Proof.
  intros Huser Hquery. unfold create_query_result. rewrite Huser, Hquery. simpl.
  destruct (result_steps _); reflexivity.
Qed.

Lemma create_query_result_db (token : string) (query_id : option Z) (db : DB F) :
  (create_query_result token query_id db).1.2 = db.
Proof.
  unfold create_query_result.
  destruct (verify_auth_token token db) as [user|]; [|reflexivity].
  destruct (result_query user query_id db) as [query|]; [|reflexivity].
  simpl. destruct (result_steps _); reflexivity.
Qed.

(** C2: the directions request of get results has no waypoints parameter
    when the stored deviation list of the query is empty; otherwise its
    waypoints parameter is 'via:enc:', the polyline encoding of the (lat,
    lng) pairs of the deviations in stored order, and ':'. *)
Theorem result_request_waypoints (token : string) (query_id : option Z) (db : DB F)
    (user : User.t) (query : Query.t F) :
  verify_auth_token token db = Some user →
  result_query user query_id db = Some query →
  ∃ param_dict,
    (create_query_result token query_id db).2 =
    [RequestsGet (MAPS_DIRECTION_BASE config) param_dict] ∧
    (get_deviation_points (Query.id query) db = [] → param_dict !! "waypoints" = None) ∧
    (get_deviation_points (Query.id query) db ≠ [] →
     param_dict !! "waypoints" =
     Some ("via:enc:" +:+
           polyline_encode
             (List.map (λ x, (dev_lat x, dev_lng x))
                (get_deviation_points (Query.id query) db)) +:+
           ":")).
Proof.
  intros Huser Hquery. eexists. split.
  - apply (create_query_result_calls _ _ _ _ _ Huser Hquery).
  - rewrite result_param_dict_waypoints.
    destruct (get_deviation_points (Query.id query) db); split; congruence.
Qed.

(** C3: get results adds up duration.value and distance.value over the
    steps of the first leg of the first route; the time it reports is
    total_seconds // 3600 hours and (total_seconds mod 3600) // 60 minutes,
    the distance total_meters * 0.621371 / 1000 rounded to 2 places. *)
Theorem result_totals (token : string) (query_id : option Z) (db : DB F)
    (user : User.t) (query : Query.t F) (all_steps : list Step) :
  verify_auth_token token db = Some user →
  result_query user query_id db = Some query →
  result_steps
    (directions_get (MAPS_DIRECTION_BASE config)
       (result_param_dict query (get_deviation_points (Query.id query) db))) =
  inr all_steps →
  ∃ body,
    (create_query_result token query_id db).1.1 = Return body ∧
    json_get "time" body =
    Some (JStr (pretty (foldr Z.add 0 (List.map duration_value all_steps) / 3600) +:+ ":" +:+
                pretty ((foldr Z.add 0 (List.map duration_value all_steps) mod 3600) / 60))) ∧
    json_get "distance" body =
    Some (JStr (float_str
                  (float_round
                     (float_truediv
                        (float_mul
                           (float_of_int (foldr Z.add 0 (List.map distance_value all_steps)))
                           (float_lit 621371 (-6)))
                        (float_of_int 1000))
                     2))).
Proof.
  intros Huser Hquery Hsteps. unfold create_query_result.
  rewrite Huser, Hquery. simpl. rewrite Hsteps. simpl.
  eexists. split; [reflexivity|]. simpl. split.
  - rewrite result_time_mod, py_sum_foldr. reflexivity.
  - unfold result_distance. rewrite py_sum_foldr. reflexivity.
Qed.

(** C4: get results is a pure read.  It leaves the database as it found
    it, so a second call returns what the first returned and the number of
    stored locations does not change; all it calls is the directions
    service; and the deviations it returns are the stored rows of the
    query. *)
Theorem get_results_is_a_read (token : string) (query_id : option Z) (db : DB F) :
  (create_query_result token query_id db).1.2 = db ∧
  create_query_result token query_id (create_query_result token query_id db).1.2 =
  create_query_result token query_id db ∧
  length (location_table
            (create_query_result token query_id
               (create_query_result token query_id db).1.2).1.2) =
  length (location_table db) ∧
  Forall (λ call, ∃ url params, call = RequestsGet url params)
    (create_query_result token query_id db).2 ∧
  ∀ user query body,
    verify_auth_token token db = Some user →
    result_query user query_id db = Some query →
    (create_query_result token query_id db).1.1 = Return body →
    json_get "deviations" body =
    Some (JList (List.map deviation_json (get_deviation_points (Query.id query) db))).
Proof.
  pose proof (create_query_result_db token query_id db) as Hdb.
  split; [exact Hdb|]. rewrite Hdb. split; [reflexivity|].
  rewrite Hdb. split; [reflexivity|]. split.
  - unfold create_query_result.
    destruct (verify_auth_token token db) as [user|]; [|constructor].
    destruct (result_query user query_id db) as [query|]; [|constructor].
    simpl. destruct (result_steps _); simpl; repeat constructor; eauto.
  - intros user query body Huser Hquery. unfold create_query_result.
    rewrite Huser, Hquery. simpl.
    destruct (result_steps _); simpl; [discriminate|].
    intros [= <-]. reflexivity.
Qed.

End RoutesFacts.

(** ** The Deviation Point Finder *)

Module DeviationFinderFacts.
Import DeviationFinder.

Section FinderFacts.
Variable point : Type.
Variable distance : point → point → Q.
Hypothesis distance_nonneg : ∀ a b, (0 <= distance a b)%Q.

Lemma path_length_nonneg (path : list point) : (0 <= path_length distance path)%Q.
Proof.
  induction path as [|a [|b tl] IH]; simpl; try lra.
  simpl in IH. pose proof (distance_nonneg a b). lra.
Qed.

Lemma travelled_step (pre : list point) (a b : point) (rest : list point) :
  (travelled distance (pre ++ a :: b :: rest) (S (length pre)) ==
   travelled distance (pre ++ a :: b :: rest) (length pre) + distance a b)%Q.
Proof.
  induction pre as [|x pre IH].
  - simpl. destruct rest; lra.
  - change (length (x :: pre)) with (S (length pre)).
    destruct pre as [|y pre].
    + simpl in *. destruct rest; simpl; lra.
    + change ((x :: y :: pre) ++ a :: b :: rest) with (x :: y :: (pre ++ a :: b :: rest)).
      change ((y :: pre) ++ a :: b :: rest) with (y :: (pre ++ a :: b :: rest)) in IH.
      change (travelled distance (x :: y :: pre ++ a :: b :: rest) (S (S (length (y :: pre)))))
        with (distance x y + travelled distance (y :: pre ++ a :: b :: rest) (S (length (y :: pre))))%Q.
      change (travelled distance (x :: y :: pre ++ a :: b :: rest) (S (length (y :: pre))))
        with (distance x y + travelled distance (y :: pre ++ a :: b :: rest) (length (y :: pre)))%Q.
      rewrite IH. lra.
Qed.

Lemma walk_positions_points (fd : Q) (rest pre : list point) (previous : point) (acc : Q) :
  Forall2 (λ k c, (pre ++ previous :: rest) !! k = Some c)
    (walk_positions distance fd (length pre) previous acc rest)
    (walk distance fd previous acc rest).
Proof.
  revert pre previous acc.
  induction rest as [|p rest IH]; intros pre previous acc; simpl; [constructor|].
  assert (Hshift : pre ++ previous :: p :: rest = (pre ++ [previous]) ++ p :: rest)
    by (rewrite <- app_assoc; reflexivity).
  assert (Hlen : S (length pre) = length (pre ++ [previous]))
    by (rewrite length_app; simpl; lia).
  destruct (Qle_bool fd (acc + distance previous p)).
  - destruct rest as [|p' rest]; [constructor|].
    constructor.
    + rewrite Hshift, Hlen. apply list_lookup_middle. reflexivity.
    + rewrite Hshift, Hlen. apply IH.
  - rewrite Hshift, Hlen. apply IH.
Qed.

Lemma walk_positions_spaced (fd : Q) (rest pre : list point) (previous : point)
    (acc last : Q) :
  (acc == travelled distance (pre ++ previous :: rest) (length pre) - last)%Q →
  spaced distance fd (pre ++ previous :: rest) last
    (walk_positions distance fd (length pre) previous acc rest).
Proof.
  revert pre previous acc last.
  induction rest as [|p rest IH]; intros pre previous acc last Hacc; simpl; [exact I|].
  assert (Hshift : pre ++ previous :: p :: rest = (pre ++ [previous]) ++ p :: rest)
    by (rewrite <- app_assoc; reflexivity).
  assert (Hlen : S (length pre) = length (pre ++ [previous]))
    by (rewrite length_app; simpl; lia).
  pose proof (travelled_step pre previous p rest) as Hstep.
  destruct (Qle_bool fd (acc + distance previous p)) eqn:Hfd.
  - apply Qle_bool_iff in Hfd.
    destruct rest as [|p' rest]; [exact I|].
    split; [lra|].
    rewrite Hlen. rewrite Hshift. apply IH. lra.
  - rewrite Hlen. rewrite Hshift at 1. apply IH.
    rewrite <- Hshift, <- Hlen. lra.
Qed.

Lemma spaced_consecutive (fd : Q) (path : list point) (positions : list nat) :
  ∀ (last : Q), spaced distance fd path last positions →
  ∀ n i j, positions !! n = Some i → positions !! S n = Some j →
           (fd <= travelled distance path j - travelled distance path i)%Q.
Proof.
  induction positions as [|k positions IH]; intros last Hsp n i j Hi Hj; [discriminate|].
  destruct Hsp as [_ Hsp]. destruct n as [|n].
  - injection Hi as <-. destruct positions as [|k' positions]; [discriminate|].
    injection Hj as <-. apply Hsp.
  - apply (IH _ Hsp n i j Hi Hj).
Qed.

Lemma walk_positions_above (fd : Q) (rest : list point) (k : nat) (previous : point)
    (acc : Q) :
  Forall (λ i, (k < i)%nat) (walk_positions distance fd k previous acc rest).
Proof.
  revert k previous acc.
  induction rest as [|p rest IH]; intros k previous acc; simpl; [constructor|].
  destruct (Qle_bool fd (acc + distance previous p)).
  - destruct rest as [|p' rest]; [constructor|].
    constructor; [lia|].
    apply (Forall_impl _ _ _ (IH (S k) p 0%Q)). intros i Hi. lia.
  - apply (Forall_impl _ _ _ (IH (S k) p _)). intros i Hi. lia.
Qed.

Lemma walk_positions_increasing (fd : Q) (rest : list point) (k : nat) (previous : point)
    (acc : Q) (n i j : nat) :
  walk_positions distance fd k previous acc rest !! n = Some i →
  walk_positions distance fd k previous acc rest !! S n = Some j →
  (i < j)%nat.
Proof.
  revert k previous acc n.
  induction rest as [|p rest IH]; intros k previous acc n; simpl; [discriminate|].
  destruct (Qle_bool fd (acc + distance previous p)); [|apply IH].
  destruct rest as [|p' rest]; [discriminate|].
  destruct n as [|n]; [|apply IH].
  intros [= <-] Hj.
  pose proof (walk_positions_above fd (p' :: rest) (S k) p 0%Q) as Habove.
  apply (Forall_lookup_1 _ _ 0%nat j Habove). exact Hj.
Qed.

Lemma walk_count (fd : Q) (rest : list point) (previous : point) (acc : Q) :
  (0 < fd)%Q → (0 <= acc)%Q →
  (inject_Z (Z.of_nat (length (walk distance fd previous acc rest))) * fd <=
   acc + path_length distance (previous :: rest))%Q.
Proof.
  intros Hpos. revert previous acc.
  induction rest as [|p rest IH]; intros previous acc Hacc.
  - simpl. change (inject_Z (Z.of_nat 0)) with 0%Q. lra.
  - change (path_length distance (previous :: p :: rest))
      with (distance previous p + path_length distance (p :: rest))%Q.
    pose proof (distance_nonneg previous p) as Hd.
    pose proof (path_length_nonneg (p :: rest)) as Hlen.
    simpl walk. destruct (Qle_bool fd (acc + distance previous p)) eqn:Hfd.
    + apply Qle_bool_iff in Hfd.
      destruct rest as [|p' rest]; [simpl; change (inject_Z (Z.of_nat 0)) with 0%Q; lra|].
      change (length (p :: walk distance fd p 0 (p' :: rest)))
        with (S (length (walk distance fd p 0 (p' :: rest)))).
      rewrite Nat2Z.inj_succ. unfold Z.succ. rewrite inject_Z_plus.
      assert (H0 : (0 <= 0)%Q) by lra.
      pose proof (IH p 0%Q H0). change (inject_Z 1) with 1%Q. lra.
    + assert (H0 : (0 <= acc + distance previous p)%Q) by lra.
      pose proof (IH p _ H0). lra.
Qed.


End FinderFacts.
End DeviationFinderFacts.

(** ** The handlers on the sample world *)

Import Exact.

Example encode_reference_vector :
  encode [(385 # 10, -1202 # 10); (407 # 10, -12095 # 100); (43252 # 1000, -126453 # 1000)]%Q =
  "_p~iF~ps|U_ulLnnqC_mqNvxq`@".
Proof. vm_compute. reflexivity. Qed.

(** The metrics example of the spec: 600 + 900 + 1500 seconds are 0 hours
    and 50 minutes, 1000 + 2000 + 3000 meters are 3.73 miles. *)
Example metrics_example :
  result_time (py_sum (List.map duration_value Sample.three_steps)) = "0:50" ∧
  result_distance (py_sum (List.map distance_value Sample.three_steps)) = "3.73".
Proof. vm_compute. split; reflexivity. Qed.

(** get results with an explicit query id never looks at who asks. *)
Lemma create_query_result_any_user {F : Type} `{!PyFloat F, !Collaborators F}
    (token1 token2 : string) (query_id : Z) (db : DB F) (user1 user2 : User.t) :
  verify_auth_token token1 db = Some user1 →
  verify_auth_token token2 db = Some user2 →
  create_query_result token1 (Some query_id) db =
  create_query_result token2 (Some query_id) db.
Proof.
  intros H1 H2. unfold create_query_result. rewrite H1, H2. reflexivity.
Qed.

(** An id that is in no row of the query table: delete query and get
    results answer with a status 3 error, compute deviations raises. *)
Lemma missing_query_reported {F : Type} `{!PyFloat F, !Collaborators F}
    (token : string) (query_id : N) (db : DB F) (user : User.t) :
  verify_auth_token token db = Some user →
  head (Query_filter_by_id (Z.of_N query_id) db) = None →
  delete_query token (Some (Z.of_N query_id)) db =
  (Return (JDict [("status", JInt 3); ("message", JStr "query is of type None")]), db, []) ∧
  create_query_result token (Some (Z.of_N query_id)) db =
  (Return (JDict [("status", JInt 3); ("message", JStr "Requested query does not exist")]),
   db, []) ∧
  compute_query_result query_id db = (Raise AttributeError, db, []).
Proof.
  intros Huser Hnone.
  unfold delete_query, create_query_result, compute_query_result, result_query.
  rewrite Huser, Hnone. repeat split.
Qed.

(** C1, at the failing input: Bob (user 2) asks for the results of query
    1, which belongs to Alice (user 1).  get results answers with status 0
    and Alice's origin, destination and stopovers, where delete query
    answers the same requester with the status 3 error; compute
    deviations on an id that is in no row raises AttributeError. *)
Theorem get_results_serves_foreign_query :
  verify_auth_token (Collaborators0 := Sample.world) "bob-token" Sample.db = Some Sample.bob ∧
  head (Query_filter_by_id 1 Sample.db) = Some Sample.alice_query ∧
  User.id Sample.bob ≠ Query.user_id Sample.alice_query ∧
  (create_query_result (Collaborators0 := Sample.world) "bob-token" (Some 1) Sample.db).1.1 =
  Return (JDict [("status", JInt 0);
                 ("message", JStr "Basic Route Created Successfully");
                 ("start", JStr "Gainesville, FL");
                 ("end", JStr "Miami, FL");
                 ("deviations",
                  JList [JDict [("name", JStr "Silver Springs");
                                ("lat", JFloat (385 # 10)%Q);
                                ("lng", JFloat (-1202 # 10)%Q)]]);
                 ("time", JStr "0:50");
                 ("distance", JStr "3.73")]) ∧
  (delete_query (Collaborators0 := Sample.world) "bob-token" (Some 1) Sample.db).1.1 =
  Return (JDict [("status", JInt 3);
                 ("message", JStr "query does not belong to this user")]) ∧
  (compute_query_result (Collaborators0 := Sample.world) 7 Sample.db).1.1 =
  Raise AttributeError.
Proof.
  repeat split; try (vm_compute; reflexivity). vm_compute. discriminate.
Qed.

Lemma line_distance_nonneg (a b : Z) : (0 <= Sample.line_distance a b)%Q.
Proof.
  unfold Sample.line_distance. rewrite <- (Zle_Qle 0). apply Z.abs_nonneg.
Qed.

(** An unknown token on the sample world. *)
Lemma token_verification_failure_witness :
  verify_auth_token (Collaborators0 := Sample.world) "stale-token" Sample.db = None ∧
  get_user_query (Collaborators0 := Sample.world) "stale-token" Sample.db =
  (Return (JDict [("status", JInt 1); ("message", JStr "Token expired")]), Sample.db, []).
Proof.
  split; [reflexivity|].
  apply (token_verification_failure (Collaborators0 := Sample.world)
           "stale-token" Sample.db).
  reflexivity.
Defined.

(** Bob asks to delete Alice's query. *)
Lemma delete_query_not_owner_witness :
  verify_auth_token (Collaborators0 := Sample.world) "bob-token" Sample.db = Some Sample.bob ∧
  head (Query_filter_by_id 1 Sample.db) = Some Sample.alice_query ∧
  User.id Sample.bob ≠ Query.user_id Sample.alice_query ∧
  delete_query (Collaborators0 := Sample.world) "bob-token" (Some 1) Sample.db =
  (Return (JDict [("status", JInt 3);
                  ("message", JStr "query does not belong to this user")]),
   Sample.db, []).
Proof.
  split; [reflexivity|]. split; [reflexivity|]. split; [vm_compute; discriminate|].
  apply (delete_query_not_owner (Collaborators0 := Sample.world)
           "bob-token" 1 Sample.db Sample.bob Sample.alice_query);
    [reflexivity | reflexivity | vm_compute; discriminate].
Defined.

(** Alice and Bob both list the two queries. *)
Lemma get_user_query_lists_all_witness :
  verify_auth_token (Collaborators0 := Sample.world) "alice-token" Sample.db =
  Some Sample.alice ∧
  verify_auth_token (Collaborators0 := Sample.world) "bob-token" Sample.db = Some Sample.bob ∧
  get_user_query (Collaborators0 := Sample.world) "alice-token" Sample.db =
  get_user_query (Collaborators0 := Sample.world) "bob-token" Sample.db.
Proof.
  split; [reflexivity|]. split; [reflexivity|].
  apply (get_user_query_lists_all (Collaborators0 := Sample.world)
           "alice-token" "bob-token" Sample.db Sample.alice Sample.bob);
    reflexivity.
Defined.

(** A leg with three steps. *)
Lemma compute_polylines_witness :
  head (Query_filter_by_id (Z.of_N 1) Sample.db) = Some Sample.alice_query ∧
  base_leg_of (directions_post (Collaborators := Sample.world)
                 (compute_url (Collaborators0 := Sample.world) Sample.alice_query)) =
  inr (mkLeg (Some Sample.three_steps) None) ∧
  (compute_query_result (Collaborators0 := Sample.world) 1 Sample.db).2 =
  [RequestsPost
     "https://maps.example/directions?origin=Gainesville, FL&destination=Miami, FL&mode=driving&key=KEY";
   CallPathDeviationPoints ["_p~iF~ps|U"; "_ulLnnqC"; "_mqNvxq`@"] 50%Q ["museum"; "park"] ""].
Proof.
  split; [reflexivity|]. split; [reflexivity|].
  destruct (compute_polylines (Collaborators0 := Sample.world) 1 Sample.db
              Sample.alice_query (mkLeg (Some Sample.three_steps) None))
    as [_ Hsteps]; [reflexivity | reflexivity |].
  apply (Hsteps Sample.three_steps). reflexivity.
Defined.

(** The two rows stored for Alice's query. *)
Lemma stored_locations_owner_witness :
  ∃ new,
    location_table
      (compute_query_result (Collaborators0 := Sample.world) 1 Sample.db).1.2 =
    location_table Sample.db ++ new ∧
    length new = 2%nat ∧
    Forall (λ l, Location.user_id l = 1 ∧ Location.query_id l = Some 1 ∧
                 Location.is_sp l = false) new ∧
    head (Query_filter_by_id 1
            (compute_query_result (Collaborators0 := Sample.world) 1 Sample.db).1.2) =
    Some Sample.alice_query.
Proof.
  apply (proj1 (stored_locations_owner (Collaborators0 := Sample.world)) 1%N Sample.db
           Sample.alice_query (mkLeg (Some Sample.three_steps) None)
           ["_p~iF~ps|U"; "_ulLnnqC"; "_mqNvxq`@"]);
    reflexivity.
Defined.

(** Alice's query has one stored stopover. *)
Lemma result_request_waypoints_witness :
  verify_auth_token (Collaborators0 := Sample.world) "alice-token" Sample.db =
  Some Sample.alice ∧
  result_query Sample.alice (Some 1) Sample.db = Some Sample.alice_query ∧
  ∃ param_dict,
    (create_query_result (Collaborators0 := Sample.world) "alice-token" (Some 1) Sample.db).2 =
    [RequestsGet "https://maps.example/directions" param_dict] ∧
    (get_deviation_points 1 Sample.db = [] → param_dict !! "waypoints" = None) ∧
    (get_deviation_points 1 Sample.db ≠ [] →
     param_dict !! "waypoints" =
     Some ("via:enc:" +:+
           encode (List.map (λ x, (dev_lat x, dev_lng x)) (get_deviation_points 1 Sample.db)) +:+
           ":")).
Proof.
  split; [reflexivity|]. split; [reflexivity|].
  apply (result_request_waypoints (Collaborators0 := Sample.world)
           "alice-token" (Some 1) Sample.db Sample.alice Sample.alice_query);
    reflexivity.
Defined.

(** The three steps of the sample route. *)
Lemma result_totals_witness :
  verify_auth_token (Collaborators0 := Sample.world) "alice-token" Sample.db =
  Some Sample.alice ∧
  result_query Sample.alice (Some 1) Sample.db = Some Sample.alice_query ∧
  ∃ body,
    (create_query_result (Collaborators0 := Sample.world)
       "alice-token" (Some 1) Sample.db).1.1 = Return body ∧
    json_get "time" body =
    Some (JStr (pretty (foldr Z.add 0 (List.map duration_value Sample.three_steps) / 3600) +:+
                ":" +:+
                pretty ((foldr Z.add 0 (List.map duration_value Sample.three_steps)
                         mod 3600) / 60))) ∧
    json_get "distance" body =
    Some (JStr (float_str
                  (float_round
                     (float_truediv
                        (float_mul
                           (float_of_int
                              (foldr Z.add 0 (List.map distance_value Sample.three_steps)))
                           (float_lit 621371 (-6)))
                        (float_of_int 1000))
                     2))).
Proof.
  split; [reflexivity|]. split; [reflexivity|].
  apply (result_totals (Collaborators0 := Sample.world)
           "alice-token" (Some 1) Sample.db Sample.alice Sample.alice_query
           Sample.three_steps);
    reflexivity.
Defined.


(** Alice fetches the results of her query twice. *)
Lemma get_results_is_a_read_witness :
  create_query_result (Collaborators0 := Sample.world) "alice-token" (Some 1)
    (create_query_result (Collaborators0 := Sample.world)
       "alice-token" (Some 1) Sample.db).1.2 =
  create_query_result (Collaborators0 := Sample.world) "alice-token" (Some 1) Sample.db ∧
  ∀ body,
    (create_query_result (Collaborators0 := Sample.world)
       "alice-token" (Some 1) Sample.db).1.1 = Return body →
    json_get "deviations" body =
    Some (JList [JDict [("name", JStr "Silver Springs");
                        ("lat", JFloat (385 # 10)%Q);
                        ("lng", JFloat (-1202 # 10)%Q)]]).
Proof.
  destruct (get_results_is_a_read (Collaborators0 := Sample.world)
              "alice-token" (Some 1) Sample.db)
    as (_ & Hsame & _ & _ & Hdeviations).
  split; [exact Hsame|].
  intros body Hbody.
  apply (Hdeviations Sample.alice Sample.alice_query body); [reflexivity | reflexivity | exact Hbody].
Defined.

(** * Further properties of the routes *)

Lemma head_filter_None {A : Type} (p : A → bool) (l : list A) :
  head (List.filter p l) = None ↔ ∀ x, In x l → p x = false.
Proof.
  induction l as [|a l IH]; simpl.
  - split; [intros _ x [] | reflexivity].
  - destruct (p a) eqn:Hp; simpl.
    + split; [discriminate|]. intros H. rewrite (H a) in Hp by auto. discriminate.
    + rewrite IH. split.
      * intros H x [<- | Hx]; auto.
      * intros H x Hx. apply H. auto.
Qed.

Lemma head_filter_filter_negb {A : Type} (p : A → bool) (l : list A) :
  head (List.filter p (List.filter (λ x, negb (p x)) l)) = None.
Proof.
  apply head_filter_None. intros x Hx. apply filter_In in Hx as [_ Hx].
  destruct (p x); [discriminate | reflexivity].
Qed.

Section MoreRoutesFacts.
Context {F : Type} `{!PyFloat F, !Collaborators F}.

Lemma verify_auth_token_user_table (token : string) (db1 db2 : DB F) :
  user_table db1 = user_table db2 →
  verify_auth_token token db1 = verify_auth_token token db2.
Proof.
  intros Husers. unfold verify_auth_token, User_query_get. rewrite Husers. reflexivity.
Qed.

(** ** Deleting a query *)

(** X1: The owner's delete request removes the rows of the query table with
    that id and nothing else: every other query stays, and so do the tags
    and the locations that reference the deleted query. *)
Theorem delete_query_owner (token : string) (query_id : Z) (db : DB F)
    (user : User.t) (query : Query.t F) :
  verify_auth_token token db = Some user →
  head (Query_filter_by_id query_id db) = Some query →
  User.id user = Query.user_id query →
  (delete_query token (Some query_id) db).1.1 =
  Return (JDict [("status", JInt 0); ("message", JStr "User query deleted successfully")]) ∧
  (∀ q, In q (query_table (delete_query token (Some query_id) db).1.2) ↔
        In q (query_table db) ∧ Query.id q ≠ query_id) ∧
  user_table (delete_query token (Some query_id) db).1.2 = user_table db ∧
  tag_table (delete_query token (Some query_id) db).1.2 = tag_table db ∧
  location_table (delete_query token (Some query_id) db).1.2 = location_table db.
Proof.
  intros Huser Hquery Howner. unfold delete_query.
  rewrite Huser, Hquery, Howner, Z.eqb_refl. simpl.
  split; [reflexivity|]. split; [|auto].
  intros q. rewrite filter_In, negb_true_iff, Z.eqb_neq. reflexivity.
Qed.

(** X2: Deleting the same query again is refused: the id is in no row any
    more. *)
Theorem delete_query_twice (token : string) (query_id : Z) (db : DB F)
    (user : User.t) (query : Query.t F) :
  verify_auth_token token db = Some user →
  head (Query_filter_by_id query_id db) = Some query →
  User.id user = Query.user_id query →
  delete_query token (Some query_id) (delete_query token (Some query_id) db).1.2 =
  (Return (JDict [("status", JInt 3); ("message", JStr "query is of type None")]),
   (delete_query token (Some query_id) db).1.2, []).
Proof.
  intros Huser Hquery Howner.
  assert (Hdb : (delete_query token (Some query_id) db).1.2 = Query_delete_by_id query_id db).
  { unfold delete_query. rewrite Huser, Hquery, Howner, Z.eqb_refl. reflexivity. }
  rewrite Hdb. unfold delete_query at 1.
  rewrite (verify_auth_token_user_table token (Query_delete_by_id query_id db) db eq_refl), Huser.
  unfold Query_filter_by_id, Query_delete_by_id. simpl.
  rewrite (head_filter_filter_negb (λ q, Query.id q =? query_id)). reflexivity.
Qed.

(** X3: A delete request changes the database only when the requester owns
    the query. *)
Theorem delete_query_changes_only_for_owner (token : string) (query_id : option Z)
    (db : DB F) :
  (delete_query token query_id db).1.2 ≠ db →
  ∃ user id query,
    query_id = Some id ∧ verify_auth_token token db = Some user ∧
    head (Query_filter_by_id id db) = Some query ∧
    User.id user = Query.user_id query.
Proof.
  unfold delete_query.
  destruct (verify_auth_token token db) as [user|]; [|simpl; congruence].
  destruct query_id as [id|]; [|simpl; congruence].
  destruct (head (Query_filter_by_id id db)) as [query|] eqn:Hquery; [|simpl; congruence].
  destruct (Z.eqb_spec (User.id user) (Query.user_id query)) as [Heq|Hne];
    [|simpl; congruence].
  intros _. exists user, id, query. auto.
Qed.

(** X4: A delete request with a null query_id, or with an id that is in no
    row, is refused with status 3 and changes nothing. *)
Theorem delete_query_refused (token : string) (db : DB F) (user : User.t) :
  verify_auth_token token db = Some user →
  delete_query token None db =
  (Return (JDict [("status", JInt 3); ("message", JStr "query_id is of type None")]),
   db, []) ∧
  ∀ query_id,
    (∀ q, In q (query_table db) → Query.id q ≠ query_id) →
    delete_query token (Some query_id) db =
    (Return (JDict [("status", JInt 3); ("message", JStr "query is of type None")]), db, []).
Proof.
  intros Huser. unfold delete_query. rewrite Huser. split; [reflexivity|].
  intros query_id Hnone.
  assert (Hhead : head (Query_filter_by_id query_id db) = None).
  { apply head_filter_None. intros q Hq. apply Z.eqb_neq. apply (Hnone q Hq). }
  rewrite Hhead. reflexivity.
Qed.

(** X5: An id that is in no row of the query table: get results answers with
    the status 3 error and asks nothing of the directions service; compute
    deviations raises AttributeError before it calls anything.  Neither
    stores anything. *)
Theorem unknown_query_id (token : string) (query_id : N) (db : DB F) (user : User.t) :
  verify_auth_token token db = Some user →
  (∀ q, In q (query_table db) → Query.id q ≠ Z.of_N query_id) →
  create_query_result token (Some (Z.of_N query_id)) db =
  (Return (JDict [("status", JInt 3); ("message", JStr "Requested query does not exist")]),
   db, []) ∧
  compute_query_result query_id db = (Raise AttributeError, db, []).
Proof.
  intros Huser Hnone.
  assert (Hhead : head (Query_filter_by_id (Z.of_N query_id) db) = None).
  { apply head_filter_None. intros q Hq. apply Z.eqb_neq. apply (Hnone q Hq). }
  unfold create_query_result, compute_query_result, result_query.
  rewrite Huser, Hhead. split; reflexivity.
Qed.

(** ** Sponsor locations *)

(** X6: A user below access level 1 is turned away before anything is asked
    of the place search, and nothing is stored. *)
Theorem add_sponsor_location_insufficient_rights (token location : string) (db : DB F)
    (user : User.t) :
  verify_auth_token token db = Some user →
  User.access_level user < 1 →
  add_sponsor_location token location db = (Return insufficient_rights_json_response, db, []).
Proof.
  intros Huser Hlevel. unfold add_sponsor_location. rewrite Huser.
  destruct (Z.ltb_spec (User.access_level user) 1) as [_|Hge]; [reflexivity | lia].
Qed.

(** X7: When the place search has no candidate the handler raises IndexError
    after the search, and nothing is stored. *)
Theorem add_sponsor_location_no_candidate (token location : string) (db : DB F)
    (user : User.t) :
  verify_auth_token token db = Some user →
  1 ≤ User.access_level user →
  candidates (place_search_post (sponsor_url location)) = [] →
  add_sponsor_location token location db =
  (Raise IndexError, db, [RequestsPost (sponsor_url location)]).
Proof.
  intros Huser Hlevel Hnone. unfold add_sponsor_location. rewrite Huser.
  destruct (Z.ltb_spec (User.access_level user) 1) as [Hlt|_]; [lia|].
  rewrite Hnone. reflexivity.
Qed.

(** X8: A sponsor's location is stored under the text that was submitted, at
    the coordinates of the first candidate of the place search; the other
    candidates play no part, the rows already there stay in front of the
    new one, and the other tables are not touched. *)
Theorem add_sponsor_location_first_candidate (token location : string) (db : DB F)
    (user : User.t) (lat lng : F) (others : list (F * F)) :
  verify_auth_token token db = Some user →
  1 ≤ User.access_level user →
  candidates (place_search_post (sponsor_url location)) = (lat, lng) :: others →
  (add_sponsor_location token location db).1.1 =
  Return (JDict [("status", JInt 0); ("message", JStr "Sponsor Location Added Successfully")]) ∧
  (add_sponsor_location token location db).2 = [RequestsPost (sponsor_url location)] ∧
  (∃ l,
     location_table (add_sponsor_location token location db).1.2 = location_table db ++ [l] ∧
     Location.keyword l = location ∧ Location.lat l = lat ∧ Location.lng l = lng) ∧
  user_table (add_sponsor_location token location db).1.2 = user_table db ∧
  query_table (add_sponsor_location token location db).1.2 = query_table db ∧
  tag_table (add_sponsor_location token location db).1.2 = tag_table db.
Proof.
  intros Huser Hlevel Hcand. unfold add_sponsor_location. rewrite Huser.
  destruct (Z.ltb_spec (User.access_level user) 1) as [Hlt|_]; [lia|].
  rewrite Hcand. simpl. repeat split. eexists. repeat split.
Qed.

(** X9: A delete request for a location that is in no row, or that belongs to
    another user, is refused with status 3 and changes nothing. *)
Theorem delete_location_refused (token : string) (location_id : Z) (db : DB F)
    (user : User.t) :
  verify_auth_token token db = Some user →
  ((∀ l, In l (location_table db) → Location.id l ≠ location_id) →
   delete_location token location_id db =
   (Return (JDict [("status", JInt 3); ("message", JStr "Location not found")]), db, [])) ∧
  (∀ loc,
     head (Location_filter_by_id location_id db) = Some loc →
     User.id user ≠ Location.user_id loc →
     delete_location token location_id db =
     (Return (JDict [("status", JInt 3);
                     ("message", JStr "The requested location does not belong to this user")]),
      db, [])).
Proof.
  intros Huser. unfold delete_location. rewrite Huser. split.
  - intros Hnone.
    assert (Hhead : head (Location_filter_by_id location_id db) = None).
    { apply head_filter_None. intros l Hl. apply Z.eqb_neq. apply (Hnone l Hl). }
    rewrite Hhead. reflexivity.
  - intros loc Hloc Hne. rewrite Hloc.
    destruct (Z.eqb_spec (User.id user) (Location.user_id loc)); [contradiction | reflexivity].
Qed.

(** X10: The owner's delete request removes the rows of the location table
    with that id, whether or not the location is a sponsor location, and
    nothing else. *)
Theorem delete_location_owner (token : string) (location_id : Z) (db : DB F)
    (user : User.t) (loc : Location.t F) :
  verify_auth_token token db = Some user →
  head (Location_filter_by_id location_id db) = Some loc →
  User.id user = Location.user_id loc →
  (delete_location token location_id db).1.1 =
  Return (JDict [("status", JInt 0);
                 ("message", JStr "Sponsor location deleted successfully")]) ∧
  (∀ l, In l (location_table (delete_location token location_id db).1.2) ↔
        In l (location_table db) ∧ Location.id l ≠ location_id) ∧
  user_table (delete_location token location_id db).1.2 = user_table db ∧
  query_table (delete_location token location_id db).1.2 = query_table db ∧
  tag_table (delete_location token location_id db).1.2 = tag_table db.
Proof.
  intros Huser Hloc Howner. unfold delete_location.
  rewrite Huser, Hloc, Howner, Z.eqb_refl. simpl.
  split; [reflexivity|]. split; [|auto].
  intros l. rewrite filter_In, negb_true_iff, Z.eqb_neq. reflexivity.
Qed.

(** X11: A location delete request changes the database only when the
    requester owns the location. *)
Theorem delete_location_changes_only_for_owner (token : string) (location_id : Z)
    (db : DB F) :
  (delete_location token location_id db).1.2 ≠ db →
  ∃ user loc,
    verify_auth_token token db = Some user ∧
    head (Location_filter_by_id location_id db) = Some loc ∧
    User.id user = Location.user_id loc.
Proof.
  unfold delete_location.
  destruct (verify_auth_token token db) as [user|]; [|simpl; congruence].
  destruct (head (Location_filter_by_id location_id db)) as [loc|] eqn:Hloc;
    [|simpl; congruence].
  destruct (Z.eqb_spec (User.id user) (Location.user_id loc)) as [Heq|Hne];
    [|simpl; congruence].
  intros _. exists user, loc. auto.
Qed.

(** ** Computing the deviations *)

(** X12: When the directions response has no route, or its first route has no
    leg, compute deviations raises IndexError; when the first leg has
    neither steps nor a polyline it raises KeyError.  In each case the
    directions request is the only call made and nothing is stored. *)
Theorem compute_query_result_errors (query_id : N) (db : DB F) (query : Query.t F) :
  head (Query_filter_by_id (Z.of_N query_id) db) = Some query →
  (routes (directions_post (compute_url query)) = [] →
   compute_query_result query_id db =
   (Raise IndexError, db, [RequestsPost (compute_url query)])) ∧
  (∀ route others,
     routes (directions_post (compute_url query)) = route :: others →
     legs route = [] →
     compute_query_result query_id db =
     (Raise IndexError, db, [RequestsPost (compute_url query)])) ∧
  (∀ route others base_leg other_legs,
     routes (directions_post (compute_url query)) = route :: others →
     legs route = base_leg :: other_legs →
     steps base_leg = None →
     polyline_points base_leg = None →
     compute_query_result query_id db =
     (Raise (KeyError "polyline"), db, [RequestsPost (compute_url query)])).
Proof.
  intros Hquery. unfold compute_query_result, base_leg_of, leg_polylines.
  rewrite Hquery. simpl. repeat split.
  - intros Hroutes. rewrite Hroutes. reflexivity.
  - intros route others Hroutes Hlegs. rewrite Hroutes. simpl. rewrite Hlegs. reflexivity.
  - intros route others base_leg other_legs Hroutes Hlegs Hsteps Hpoints.
    rewrite Hroutes. simpl. rewrite Hlegs. simpl. rewrite Hsteps, Hpoints. reflexivity.
Qed.

Lemma compute_query_result_ok (query_id : N) (db : DB F) (query : Query.t F)
    (base_leg : Leg) (polylines : list string) :
  head (Query_filter_by_id (Z.of_N query_id) db) = Some query →
  base_leg_of (directions_post (compute_url query)) = inr base_leg →
  leg_polylines base_leg = inr polylines →
  compute_query_result query_id db =
  (Return (JDict [("status", JInt 0);
                  ("message", JStr "Basic Route Created Successfully");
                  ("deviations",
                   JList (List.map deviation_json
                            (pathDeviationPoints polylines (Query.fd query)
                               (List.map Tag.keyword
                                  (Tag_filter_by_query_id (Query.id query) db)) "")))]),
   persist_deviations query
     (pathDeviationPoints polylines (Query.fd query)
        (List.map Tag.keyword (Tag_filter_by_query_id (Query.id query) db)) "")
     db,
   [RequestsPost (compute_url query);
    CallPathDeviationPoints polylines (Query.fd query)
      (List.map Tag.keyword (Tag_filter_by_query_id (Query.id query) db)) ""]).
Proof.
  intros Hquery Hleg Hpoly. unfold compute_query_result.
  rewrite Hquery. simpl. rewrite Hleg, Hpoly. reflexivity.
Qed.

(** X13: compute deviations stores what it returns: the rows it appends to the
    location table carry, one by one and in order, the name, latitude and
    longitude of the deviations of the response.  The other tables are not
    touched. *)
Theorem compute_query_result_stores_response (query_id : N) (db : DB F)
    (query : Query.t F) (base_leg : Leg) (polylines : list string) :
  head (Query_filter_by_id (Z.of_N query_id) db) = Some query →
  base_leg_of (directions_post (compute_url query)) = inr base_leg →
  leg_polylines base_leg = inr polylines →
  ∃ deviations new,
    (compute_query_result query_id db).1.1 =
    Return (JDict [("status", JInt 0);
                   ("message", JStr "Basic Route Created Successfully");
                   ("deviations", JList (List.map deviation_json deviations))]) ∧
    location_table (compute_query_result query_id db).1.2 = location_table db ++ new ∧
    Forall2 (λ d l, Location.keyword l = dev_name d ∧ Location.lat l = dev_lat d ∧
                    Location.lng l = dev_lng d) deviations new ∧
    user_table (compute_query_result query_id db).1.2 = user_table db ∧
    query_table (compute_query_result query_id db).1.2 = query_table db ∧
    tag_table (compute_query_result query_id db).1.2 = tag_table db.
Proof.
  intros Hquery Hleg Hpoly.
  rewrite (compute_query_result_ok _ _ _ _ _ Hquery Hleg Hpoly). simpl.
  destruct (persist_deviations_rows query
              (pathDeviationPoints polylines (Query.fd query)
                 (List.map Tag.keyword (Tag_filter_by_query_id (Query.id query) db)) "")
              db) as (new & Htable & Hrows).
  eexists _, new. split; [reflexivity|]. split; [exact Htable|]. split.
  - apply (Forall2_impl _ _ _ _ Hrows). intros d l (Hk & Hlat & Hlng & _). auto.
  - apply persist_deviations_other_tables.
Qed.

(** X14: compute deviations has no memory of an earlier pass: run again on the
    database it left, it makes the same calls, returns the same response
    and stores the deviations a second time, behind the rows of the first
    pass. *)
Theorem compute_query_result_twice (query_id : N) (db : DB F) (query : Query.t F)
    (base_leg : Leg) (polylines : list string) :
  head (Query_filter_by_id (Z.of_N query_id) db) = Some query →
  base_leg_of (directions_post (compute_url query)) = inr base_leg →
  leg_polylines base_leg = inr polylines →
  (compute_query_result query_id (compute_query_result query_id db).1.2).1.1 =
  (compute_query_result query_id db).1.1 ∧
  (compute_query_result query_id (compute_query_result query_id db).1.2).2 =
  (compute_query_result query_id db).2 ∧
  ∃ first second,
    location_table (compute_query_result query_id db).1.2 = location_table db ++ first ∧
    location_table (compute_query_result query_id (compute_query_result query_id db).1.2).1.2 =
    location_table db ++ first ++ second ∧
    Forall2 (deviation_row query)
      (pathDeviationPoints polylines (Query.fd query)
         (List.map Tag.keyword (Tag_filter_by_query_id (Query.id query) db)) "")
      first ∧
    Forall2 (deviation_row query)
      (pathDeviationPoints polylines (Query.fd query)
         (List.map Tag.keyword (Tag_filter_by_query_id (Query.id query) db)) "")
      second.
Proof.
  intros Hquery Hleg Hpoly.
  rewrite (compute_query_result_ok _ _ _ _ _ Hquery Hleg Hpoly). simpl.
  set (deviations := pathDeviationPoints polylines (Query.fd query)
                       (List.map Tag.keyword (Tag_filter_by_query_id (Query.id query) db)) "").
  destruct (persist_deviations_other_tables query deviations db) as (_ & Hqueries & Htags).
  assert (Hquery' : head (Query_filter_by_id (Z.of_N query_id)
                            (persist_deviations query deviations db)) = Some query).
  { unfold Query_filter_by_id. rewrite Hqueries. exact Hquery. }
  assert (Htags' : Tag_filter_by_query_id (Query.id query)
                     (persist_deviations query deviations db) =
                   Tag_filter_by_query_id (Query.id query) db).
  { unfold Tag_filter_by_query_id. rewrite Htags. reflexivity. }
  rewrite (compute_query_result_ok _ _ _ _ _ Hquery' Hleg Hpoly). simpl.
  rewrite Htags'. fold deviations.
  split; [reflexivity|]. split; [reflexivity|].
  destruct (persist_deviations_rows query deviations db) as (first & Hfirst & Hrows1).
  destruct (persist_deviations_rows query deviations (persist_deviations query deviations db))
    as (second & Hsecond & Hrows2).
  exists first, second. split; [exact Hfirst|]. split; [|auto].
  rewrite Hsecond, Hfirst, <- app_assoc. reflexivity.
Qed.

(** ** Getting the results *)

Lemma first_by_id_desc_from (rows : list (Query.t F)) (best : option (Query.t F)) :
  let pick := fold_left
                (λ best q,
                   match best with
                   | None => Some q
                   | Some b => if Query.id b <? Query.id q then Some q else Some b
                   end)
                rows best in
  (pick = None → best = None ∧ rows = []) ∧
  (∀ q, pick = Some q →
        (best = Some q ∨ In q rows) ∧
        (∀ b, best = Some b → Query.id b ≤ Query.id q) ∧
        (∀ q', In q' rows → Query.id q' ≤ Query.id q)).
Proof.
  revert best. induction rows as [|r rows IH]; intros best; simpl.
  - split; [auto|]. intros q ->. split; [auto|]. split.
    + intros b [= ->]. lia.
    + intros q' [].
  - destruct best as [b|].
    + destruct (Z.ltb_spec (Query.id b) (Query.id r)) as [Hlt|Hge].
      * destruct (IH (Some r)) as [Hnone Hsome]. split.
        { intros Hp. destruct (Hnone Hp) as [Hb _]. discriminate. }
        intros q Hp. destruct (Hsome q Hp) as (Hin & Hbest & Hrows).
        pose proof (Hbest r eq_refl) as Hr. split; [|split].
        { destruct Hin as [[= ->] | Hin]; auto. }
        { intros b' [= <-]. lia. }
        { intros q' [<- | Hq']; [exact Hr | apply (Hrows q' Hq')]. }
      * destruct (IH (Some b)) as [Hnone Hsome]. split.
        { intros Hp. destruct (Hnone Hp) as [Hb _]. discriminate. }
        intros q Hp. destruct (Hsome q Hp) as (Hin & Hbest & Hrows).
        pose proof (Hbest b eq_refl) as Hb. split; [|split].
        { destruct Hin as [Hin | Hin]; auto. }
        { intros b' [= <-]. exact Hb. }
        { intros q' [<- | Hq']; [lia | apply (Hrows q' Hq')]. }
    + destruct (IH (Some r)) as [Hnone Hsome]. split.
      { intros Hp. destruct (Hnone Hp) as [Hb _]. discriminate. }
      intros q Hp. destruct (Hsome q Hp) as (Hin & Hbest & Hrows).
      pose proof (Hbest r eq_refl) as Hr. split; [|split].
      { destruct Hin as [[= ->] | Hin]; auto. }
      { discriminate. }
      { intros q' [<- | Hq']; [exact Hr | apply (Hrows q' Hq')]. }
Qed.

(** X15: Without a query_id, get results works on the requester's own query
    with the largest id; a requester without any query gets the status 3
    error. *)
Theorem get_results_latest_own_query (token : string) (db : DB F) (user : User.t) :
  verify_auth_token token db = Some user →
  ((∀ q, In q (query_table db) → Query.user_id q ≠ User.id user) →
   create_query_result token None db =
   (Return (JDict [("status", JInt 3); ("message", JStr "Requested query does not exist")]),
    db, [])) ∧
  (∀ q, In q (query_table db) → Query.user_id q = User.id user →
        ∃ query,
          result_query user None db = Some query ∧
          In query (query_table db) ∧
          Query.user_id query = User.id user ∧
          (∀ q', In q' (query_table db) → Query.user_id q' = User.id user →
                 Query.id q' ≤ Query.id query)).
Proof.
  intros Huser. split.
  - intros Hnone. unfold create_query_result, result_query. rewrite Huser.
    assert (Hrows : Query_filter_by_user_id (User.id user) db = []).
    { unfold Query_filter_by_user_id.
      destruct (List.filter _ (query_table db)) as [|q rows] eqn:Hrows; [reflexivity|].
      assert (Hq : In q (List.filter (λ q, Query.user_id q =? User.id user) (query_table db)))
        by (rewrite Hrows; left; reflexivity).
      apply filter_In in Hq as [Hin Hq]. apply Z.eqb_eq in Hq.
      destruct (Hnone q Hin Hq). }
    rewrite Hrows. reflexivity.
  - intros q Hin Hq. unfold result_query, first_by_id_desc.
    pose proof (first_by_id_desc_from (Query_filter_by_user_id (User.id user) db) None)
      as [Hnone Hsome].
    simpl in Hnone, Hsome.
    destruct (fold_left _ (Query_filter_by_user_id (User.id user) db) None)
      as [query|] eqn:Hpick.
    + destruct (Hsome query eq_refl) as (Hq_in & _ & Hmax).
      destruct Hq_in as [Hq_in | Hq_in]; [discriminate|].
      unfold Query_filter_by_user_id in Hq_in, Hmax.
      apply filter_In in Hq_in as [Hq_in Hq_user]. apply Z.eqb_eq in Hq_user.
      exists query. repeat split; auto.
      intros q' Hin' Hq'. apply Hmax. apply filter_In. split; [exact Hin'|].
      apply Z.eqb_eq. exact Hq'.
    + destruct (Hnone eq_refl) as [_ Hrows]. exfalso.
      assert (Hq_in : In q (Query_filter_by_user_id (User.id user) db)).
      { unfold Query_filter_by_user_id. apply filter_In. split; [exact Hin|].
        apply Z.eqb_eq. exact Hq. }
      rewrite Hrows in Hq_in. destruct Hq_in.
Qed.

(** X16: The directions request of get results carries the origin and the
    destination of the query and the API key, the waypoints only when
    there are deviations, and no other parameter. *)
Theorem result_param_dict_keys (query : Query.t F) (deviations : list (Deviation F)) :
  result_param_dict query deviations !! "origin" = Some (Query.entry_o query) ∧
  result_param_dict query deviations !! "destination" = Some (Query.entry_d query) ∧
  result_param_dict query deviations !! "key" = Some (GCP_API_KEY config) ∧
  ∀ key,
    key ≠ "origin" → key ≠ "destination" → key ≠ "key" → key ≠ "waypoints" →
    result_param_dict query deviations !! key = None.
Proof.
  unfold result_param_dict. destruct deviations as [|d deviations]; simpl.
  - split; [|split; [|split]].
    + rewrite !lookup_insert_ne by discriminate. apply lookup_insert_eq.
    + rewrite lookup_insert_ne by discriminate. apply lookup_insert_eq.
    + apply lookup_insert_eq.
    + intros key H1 H2 H3 _. rewrite !lookup_insert_ne by congruence. apply lookup_empty.
  - split; [|split; [|split]].
    + rewrite !lookup_insert_ne by discriminate. apply lookup_insert_eq.
    + rewrite !lookup_insert_ne by discriminate. apply lookup_insert_eq.
    + rewrite lookup_insert_ne by discriminate. apply lookup_insert_eq.
    + intros key H1 H2 H3 H4. rewrite !lookup_insert_ne by congruence. apply lookup_empty.
Qed.

(** X17: When the directions response has no route, or its first route has no
    leg, get results raises IndexError, and when the first leg has no steps
    it raises KeyError, even when the leg has a polyline; the request was
    made and nothing is stored. *)
Theorem create_query_result_errors (token : string) (query_id : option Z) (db : DB F)
    (user : User.t) (query : Query.t F) :
  verify_auth_token token db = Some user →
  result_query user query_id db = Some query →
  let param_dict := result_param_dict query (get_deviation_points (Query.id query) db) in
  let distance_request := directions_get (MAPS_DIRECTION_BASE config) param_dict in
  (routes distance_request = [] →
   create_query_result token query_id db =
   (Raise IndexError, db, [RequestsGet (MAPS_DIRECTION_BASE config) param_dict])) ∧
  (∀ route others,
     routes distance_request = route :: others →
     legs route = [] →
     create_query_result token query_id db =
     (Raise IndexError, db, [RequestsGet (MAPS_DIRECTION_BASE config) param_dict])) ∧
  (∀ route others leg other_legs,
     routes distance_request = route :: others →
     legs route = leg :: other_legs →
     steps leg = None →
     create_query_result token query_id db =
     (Raise (KeyError "steps"), db, [RequestsGet (MAPS_DIRECTION_BASE config) param_dict])).
Proof.
  intros Huser Hquery param_dict distance_request.
  unfold create_query_result, result_steps, base_leg_of.
  rewrite Huser, Hquery. simpl. fold param_dict. fold distance_request. repeat split.
  - intros Hroutes. rewrite Hroutes. reflexivity.
  - intros route others Hroutes Hlegs. rewrite Hroutes. simpl. rewrite Hlegs. reflexivity.
  - intros route others leg other_legs Hroutes Hlegs Hsteps.
    rewrite Hroutes. simpl. rewrite Hlegs. simpl. rewrite Hsteps. reflexivity.
Qed.

(** ** What the handlers leave alone *)

(** X18: None of delete query, compute deviations, get results, get queries,
    add sponsor location and delete sponsor location changes the user
    table or the tag table, whatever the request. *)
Theorem handlers_keep_users_and_tags (token : string) (db : DB F) :
  (∀ query_id,
     user_table (delete_query token query_id db).1.2 = user_table db ∧
     tag_table (delete_query token query_id db).1.2 = tag_table db) ∧
  (∀ query_id,
     user_table (compute_query_result query_id db).1.2 = user_table db ∧
     tag_table (compute_query_result query_id db).1.2 = tag_table db) ∧
  (∀ query_id,
     user_table (create_query_result token query_id db).1.2 = user_table db ∧
     tag_table (create_query_result token query_id db).1.2 = tag_table db) ∧
  (user_table (get_user_query token db).1.2 = user_table db ∧
   tag_table (get_user_query token db).1.2 = tag_table db) ∧
  (∀ location,
     user_table (add_sponsor_location token location db).1.2 = user_table db ∧
     tag_table (add_sponsor_location token location db).1.2 = tag_table db) ∧
  (∀ location_id,
     user_table (delete_location token location_id db).1.2 = user_table db ∧
     tag_table (delete_location token location_id db).1.2 = tag_table db).
Proof.
  repeat split.
  all: try (rewrite create_query_result_db; reflexivity).
  all: unfold delete_query, compute_query_result, get_user_query, add_sponsor_location,
         delete_location.
  all: repeat match goal with
         | |- context [match ?x with _ => _ end] => destruct x; simpl
         end.
  all: try reflexivity.
  all: apply persist_deviations_other_tables.
Qed.

(** ** Tokens *)

(** X19: A token verifies to a user only if it carries the id of that user and
    the user table has the row; it verifies to no user exactly when the
    signature is bad or expired, or no row has the id it carries. *)
Theorem verify_auth_token_spec (token : string) (db : DB F) :
  (∀ user,
     verify_auth_token token db = Some user →
     serializer_loads token = Some (User.id user) ∧ In user (user_table db)) ∧
  (verify_auth_token token db = None ↔
   serializer_loads token = None ∨
   ∃ user_id,
     serializer_loads token = Some user_id ∧
     ∀ user, In user (user_table db) → User.id user ≠ user_id).
Proof.
  unfold verify_auth_token, User_query_get.
  destruct (serializer_loads token) as [user_id|]; split.
  - intros user Hfind. apply find_some in Hfind as [Hin Hid].
    apply Z.eqb_eq in Hid. subst user_id. auto.
  - split.
    + intros Hnone. right. exists user_id. split; [reflexivity|].
      intros user Hin. apply Z.eqb_neq. apply (find_none _ _ Hnone user Hin).
    + intros [Hbad | (uid & [= <-] & Hrows)]; [discriminate|].
      destruct (List.find _ (user_table db)) as [user|] eqn:Hfind; [|reflexivity].
      apply find_some in Hfind as [Hin Hid]. apply Z.eqb_eq in Hid.
      destruct (Hrows user Hin Hid).
  - discriminate.
  - split; auto.
Qed.

(** X20: Auth tokens and reset tokens are interchangeable: a reset token issued
    for a stored user, while its signature verifies, is accepted by
    verify_auth_token as that user, and an auth token by
    verify_reset_token. *)
Theorem reset_token_authenticates {issuer : TokenIssuer} (user : User.t) (expires_seconds : Z)
    (db : DB F) :
  serializer_loads (serializer_dumps expires_seconds (User.id user)) = Some (User.id user) →
  User_query_get (User.id user) db = Some user →
  verify_auth_token (get_reset_token user expires_seconds) db = Some user ∧
  verify_reset_token (get_auth_token user expires_seconds) db = Some user ∧
  ∀ token, verify_reset_token token db = verify_auth_token token db.
Proof.
  intros Hloads Hrow.
  unfold verify_auth_token, verify_reset_token, get_reset_token, get_auth_token.
  rewrite Hloads, Hrow. auto.
Qed.

End MoreRoutesFacts.

(** ** The further properties on the sample world *)

(** Alice deletes her own query. *)
Lemma delete_query_owner_witness :
  verify_auth_token (Collaborators0 := Sample.world) "alice-token" Sample.db =
  Some Sample.alice ∧
  head (Query_filter_by_id 1 Sample.db) = Some Sample.alice_query ∧
  User.id Sample.alice = Query.user_id Sample.alice_query ∧
  query_table (delete_query (Collaborators0 := Sample.world)
                 "alice-token" (Some 1) Sample.db).1.2 = [Sample.bob_query] ∧
  location_table (delete_query (Collaborators0 := Sample.world)
                    "alice-token" (Some 1) Sample.db).1.2 = location_table Sample.db.
Proof.
  split; [reflexivity|]. split; [reflexivity|]. split; [reflexivity|].
  split; [reflexivity|].
  apply (delete_query_owner (Collaborators0 := Sample.world)
           "alice-token" 1 Sample.db Sample.alice Sample.alice_query);
    reflexivity.
Defined.

Lemma delete_query_twice_witness :
  verify_auth_token (Collaborators0 := Sample.world) "alice-token" Sample.db =
  Some Sample.alice ∧
  head (Query_filter_by_id 1 Sample.db) = Some Sample.alice_query ∧
  User.id Sample.alice = Query.user_id Sample.alice_query ∧
  (delete_query (Collaborators0 := Sample.world) "alice-token" (Some 1)
     (delete_query (Collaborators0 := Sample.world)
        "alice-token" (Some 1) Sample.db).1.2).1.1 =
  Return (JDict [("status", JInt 3); ("message", JStr "query is of type None")]).
Proof.
  split; [reflexivity|]. split; [reflexivity|]. split; [reflexivity|].
  rewrite (delete_query_twice (Collaborators0 := Sample.world)
             "alice-token" 1 Sample.db Sample.alice Sample.alice_query);
    reflexivity.
Defined.

Lemma delete_query_changes_only_for_owner_witness :
  (delete_query (Collaborators0 := Sample.world) "alice-token" (Some 1) Sample.db).1.2 ≠
  Sample.db ∧
  ∃ user id query,
    Some 1 = Some id ∧
    verify_auth_token (Collaborators0 := Sample.world) "alice-token" Sample.db = Some user ∧
    head (Query_filter_by_id id Sample.db) = Some query ∧
    User.id user = Query.user_id query.
Proof.
  assert (Hchanged : (delete_query (Collaborators0 := Sample.world)
                        "alice-token" (Some 1) Sample.db).1.2 ≠ Sample.db)
    by (vm_compute; discriminate).
  split; [exact Hchanged|].
  apply (delete_query_changes_only_for_owner (Collaborators0 := Sample.world)
           "alice-token" (Some 1) Sample.db Hchanged).
Defined.

Lemma delete_query_refused_witness :
  verify_auth_token (Collaborators0 := Sample.world) "bob-token" Sample.db = Some Sample.bob ∧
  delete_query (Collaborators0 := Sample.world) "bob-token" None Sample.db =
  (Return (JDict [("status", JInt 3); ("message", JStr "query_id is of type None")]),
   Sample.db, []).
Proof.
  split; [reflexivity|].
  apply (delete_query_refused (Collaborators0 := Sample.world)
           "bob-token" Sample.db Sample.bob).
  reflexivity.
Defined.

(** Alice has access level 0, Bob has 1. *)
Lemma add_sponsor_location_insufficient_rights_witness :
  verify_auth_token (Collaborators0 := Sample.world) "alice-token" Sample.db =
  Some Sample.alice ∧
  User.access_level Sample.alice < 1 ∧
  add_sponsor_location (Collaborators0 := Sample.world) "alice-token" "Cafe" Sample.db =
  (Return (JDict [("status", JInt 2); ("message", JStr "Insufficient rights")]),
   Sample.db, []).
Proof.
  split; [reflexivity|]. split; [reflexivity|].
  apply (add_sponsor_location_insufficient_rights (Collaborators0 := Sample.world)
           "alice-token" "Cafe" Sample.db Sample.alice);
    reflexivity.
Defined.

Lemma add_sponsor_location_no_candidate_witness :
  verify_auth_token (Collaborators0 := Sample.world_without_places) "bob-token" Sample.db =
  Some Sample.bob ∧
  1 ≤ User.access_level Sample.bob ∧
  candidates (place_search_post (Collaborators := Sample.world_without_places)
                (sponsor_url (Collaborators0 := Sample.world_without_places) "Cafe")) = [] ∧
  (add_sponsor_location (Collaborators0 := Sample.world_without_places)
     "bob-token" "Cafe" Sample.db).1.1 = Raise IndexError.
Proof.
  split; [reflexivity|]. split; [vm_compute; discriminate|]. split; [reflexivity|].
  rewrite (add_sponsor_location_no_candidate (Collaborators0 := Sample.world_without_places)
             "bob-token" "Cafe" Sample.db Sample.bob);
    [reflexivity | reflexivity | vm_compute; discriminate | reflexivity].
Defined.

Lemma add_sponsor_location_first_candidate_witness :
  verify_auth_token (Collaborators0 := Sample.world) "bob-token" Sample.db = Some Sample.bob ∧
  1 ≤ User.access_level Sample.bob ∧
  ∃ l,
    location_table (add_sponsor_location (Collaborators0 := Sample.world)
                      "bob-token" "Cafe" Sample.db).1.2 = location_table Sample.db ++ [l] ∧
    Location.keyword l = "Cafe" ∧ Location.lat l = (258 # 10)%Q ∧
    Location.lng l = (-802 # 10)%Q.
Proof.
  split; [reflexivity|]. split; [vm_compute; discriminate|].
  apply (add_sponsor_location_first_candidate (Collaborators0 := Sample.world)
           "bob-token" "Cafe" Sample.db Sample.bob (258 # 10)%Q (-802 # 10)%Q []);
    [reflexivity | vm_compute; discriminate | reflexivity].
Defined.

(** Alice asks to delete Bob's sponsor location. *)
Lemma delete_location_refused_witness :
  verify_auth_token (Collaborators0 := Sample.world) "alice-token" Sample.db =
  Some Sample.alice ∧
  head (Location_filter_by_id 2 Sample.db) = Some Sample.bob_sponsor_location ∧
  User.id Sample.alice ≠ Location.user_id Sample.bob_sponsor_location ∧
  delete_location (Collaborators0 := Sample.world) "alice-token" 2 Sample.db =
  (Return (JDict [("status", JInt 3);
                  ("message", JStr "The requested location does not belong to this user")]),
   Sample.db, []).
Proof.
  split; [reflexivity|]. split; [reflexivity|]. split; [vm_compute; discriminate|].
  destruct (delete_location_refused (Collaborators0 := Sample.world)
              "alice-token" 2 Sample.db Sample.alice) as [_ Hforeign]; [reflexivity|].
  apply (Hforeign Sample.bob_sponsor_location); [reflexivity | vm_compute; discriminate].
Defined.

(** Alice deletes the stopover of her query, which is no sponsor
    location. *)
Lemma delete_location_owner_witness :
  verify_auth_token (Collaborators0 := Sample.world) "alice-token" Sample.db =
  Some Sample.alice ∧
  head (Location_filter_by_id 1 Sample.db) = Some Sample.alice_stopover ∧
  User.id Sample.alice = Location.user_id Sample.alice_stopover ∧
  Location.is_sp Sample.alice_stopover = false ∧
  (delete_location (Collaborators0 := Sample.world) "alice-token" 1 Sample.db).1.1 =
  Return (JDict [("status", JInt 0);
                 ("message", JStr "Sponsor location deleted successfully")]).
Proof.
  split; [reflexivity|]. split; [reflexivity|]. split; [reflexivity|].
  split; [reflexivity|].
  apply (delete_location_owner (Collaborators0 := Sample.world)
           "alice-token" 1 Sample.db Sample.alice Sample.alice_stopover);
    reflexivity.
Defined.

Lemma delete_location_changes_only_for_owner_witness :
  (delete_location (Collaborators0 := Sample.world) "bob-token" 2 Sample.db).1.2 ≠
  Sample.db ∧
  ∃ user loc,
    verify_auth_token (Collaborators0 := Sample.world) "bob-token" Sample.db = Some user ∧
    head (Location_filter_by_id 2 Sample.db) = Some loc ∧
    User.id user = Location.user_id loc.
Proof.
  assert (Hchanged : (delete_location (Collaborators0 := Sample.world)
                        "bob-token" 2 Sample.db).1.2 ≠ Sample.db)
    by (vm_compute; discriminate).
  split; [exact Hchanged|].
  apply (delete_location_changes_only_for_owner (Collaborators0 := Sample.world)
           "bob-token" 2 Sample.db Hchanged).
Defined.

(** A directions response without a route. *)
Lemma compute_query_result_errors_witness :
  head (Query_filter_by_id (Z.of_N 1) Sample.db) = Some Sample.alice_query ∧
  (compute_query_result (Collaborators0 := Sample.world_with (mkDirectionResult []))
     1 Sample.db).1.1 = Raise IndexError.
Proof.
  split; [reflexivity|].
  destruct (compute_query_result_errors
              (Collaborators0 := Sample.world_with (mkDirectionResult []))
              1 Sample.db Sample.alice_query) as [Hnone _]; [reflexivity|].
  rewrite Hnone; reflexivity.
Defined.

Lemma compute_query_result_stores_response_witness :
  head (Query_filter_by_id (Z.of_N 1) Sample.db) = Some Sample.alice_query ∧
  ∃ deviations new,
    (compute_query_result (Collaborators0 := Sample.world) 1 Sample.db).1.1 =
    Return (JDict [("status", JInt 0);
                   ("message", JStr "Basic Route Created Successfully");
                   ("deviations", JList (List.map deviation_json deviations))]) ∧
    location_table (compute_query_result (Collaborators0 := Sample.world) 1 Sample.db).1.2 =
    location_table Sample.db ++ new ∧
    Forall2 (λ d l, Location.keyword l = dev_name d ∧ Location.lat l = dev_lat d ∧
                    Location.lng l = dev_lng d) deviations new.
Proof.
  split; [reflexivity|].
  destruct (compute_query_result_stores_response (Collaborators0 := Sample.world)
              1 Sample.db Sample.alice_query (mkLeg (Some Sample.three_steps) None)
              ["_p~iF~ps|U"; "_ulLnnqC"; "_mqNvxq`@"])
    as (deviations & new & Hbody & Htable & Hrows & _);
    [reflexivity | reflexivity | reflexivity |].
  exists deviations, new. auto.
Defined.

Lemma compute_query_result_twice_witness :
  head (Query_filter_by_id (Z.of_N 1) Sample.db) = Some Sample.alice_query ∧
  length (location_table
            (compute_query_result (Collaborators0 := Sample.world) 1
               (compute_query_result (Collaborators0 := Sample.world) 1 Sample.db).1.2).1.2) =
  6%nat ∧
  (compute_query_result (Collaborators0 := Sample.world) 1
     (compute_query_result (Collaborators0 := Sample.world) 1 Sample.db).1.2).1.1 =
  (compute_query_result (Collaborators0 := Sample.world) 1 Sample.db).1.1.
Proof.
  split; [reflexivity|]. split; [reflexivity|].
  apply (compute_query_result_twice (Collaborators0 := Sample.world)
           1 Sample.db Sample.alice_query (mkLeg (Some Sample.three_steps) None)
           ["_p~iF~ps|U"; "_ulLnnqC"; "_mqNvxq`@"]);
    reflexivity.
Defined.

(** Bob asks for results without naming a query. *)
Lemma get_results_latest_own_query_witness :
  verify_auth_token (Collaborators0 := Sample.world) "bob-token" Sample.db = Some Sample.bob ∧
  ∃ query,
    result_query Sample.bob None Sample.db = Some query ∧
    In query (query_table Sample.db) ∧
    Query.user_id query = User.id Sample.bob ∧
    (∀ q', In q' (query_table Sample.db) → Query.user_id q' = User.id Sample.bob →
           Query.id q' ≤ Query.id query).
Proof.
  split; [reflexivity|].
  destruct (get_results_latest_own_query (Collaborators0 := Sample.world)
              "bob-token" Sample.db Sample.bob) as [_ Hlatest]; [reflexivity|].
  apply (Hlatest Sample.bob_query); [right; left; reflexivity | reflexivity].
Defined.

(** A leg with a polyline and no steps. *)
Lemma create_query_result_errors_witness :
  verify_auth_token (Collaborators0 := Sample.world_with Sample.overview_route)
    "alice-token" Sample.db = Some Sample.alice ∧
  result_query Sample.alice (Some 1) Sample.db = Some Sample.alice_query ∧
  (create_query_result (Collaborators0 := Sample.world_with Sample.overview_route)
     "alice-token" (Some 1) Sample.db).1.1 = Raise (KeyError "steps").
Proof.
  split; [reflexivity|]. split; [reflexivity|].
  destruct (create_query_result_errors
              (Collaborators0 := Sample.world_with Sample.overview_route)
              "alice-token" (Some 1) Sample.db Sample.alice Sample.alice_query)
    as (_ & _ & Hsteps); [reflexivity | reflexivity |].
  rewrite (Hsteps (mkRoute [mkLeg None (Some "_p~iF~ps|U_ulLnnqC_mqNvxq`@")]) []
             (mkLeg None (Some "_p~iF~ps|U_ulLnnqC_mqNvxq`@")) []);
    reflexivity.
Defined.

(** A reset token issued for Alice. *)
Lemma reset_token_authenticates_witness :
  serializer_loads (Collaborators := Sample.world)
    (serializer_dumps (TokenIssuer := Sample.issuer) 1800 (User.id Sample.alice)) =
  Some (User.id Sample.alice) ∧
  User_query_get (User.id Sample.alice) Sample.db = Some Sample.alice ∧
  verify_auth_token (Collaborators0 := Sample.world)
    (get_reset_token (issuer := Sample.issuer) Sample.alice 1800) Sample.db =
  Some Sample.alice.
Proof.
  split; [reflexivity|]. split; [reflexivity|].
  apply (reset_token_authenticates (Collaborators0 := Sample.world)
           (issuer := Sample.issuer) Sample.alice 1800 Sample.db);
    reflexivity.
Defined.

(** Bob asks for the results of query 7, which does not exist. *)
Lemma unknown_query_id_witness :
  verify_auth_token (Collaborators0 := Sample.world) "bob-token" Sample.db = Some Sample.bob ∧
  compute_query_result (Collaborators0 := Sample.world) 7 Sample.db =
  (Raise AttributeError, Sample.db, []).
Proof.
  split; [reflexivity|].
  apply (unknown_query_id (Collaborators0 := Sample.world) "bob-token" 7 Sample.db Sample.bob);
    [reflexivity|].
  intros q [<- | [<- | []]]; vm_compute; discriminate.
Defined.
